(** * vhr_parser: the nested binary container decoder of [file_parser.py]

    A shallow embedding of [FileParser]: the four layer decoders
    ([parse_layer1] .. [parse_layer4]), their composition [extract_frames],
    the per-file driver [process_file] and the directory loop
    [process_directory].

    Python generators are modelled by the finite trace they produce: the list
    of yielded values together with the way the generator stopped (exhausted,
    or an exception raised).  The decoders are pure, so this trace is exactly
    what a [for] loop over the generator observes. *)

From Stdlib Require Import Ascii String Strings.Byte.
From Stdlib Require Import List Arith NArith Bool Lia Permutation.
Import ListNotations.
Open Scope N_scope.
Set Warnings "-register-all".

(* ================================================================== *)
(** * Python values and exceptions                                      *)
(* ================================================================== *)

(** The exceptions the modelled code can meet.  [ExternalError] stands for
    whatever an external collaborator (decoder, writer, directory creation)
    raises; all of them are subclasses of [Exception]. *)
Inductive exn : Type :=
| AttributeError
| TypeError
| ValueError
| StructError
| FileNotFoundError
| BadGzipFile
| ExternalError (who : string).

Definition result (A : Type) : Type := (exn + A)%type.

Definition ret {A} (a : A) : result A := inr a.
Definition raise {A} (e : exn) : result A := inl e.
Definition bind {A B} (m : result A) (k : A -> result B) : result B :=
  match m with
  | inl e => inl e
  | inr a => k a
  end.

Notation "x <- m ;; k" := (bind m (fun x => k))
  (at level 61, m at next level, right associativity).

(** The objects that flow through the decoders: a [memoryview] over bytes,
    and the tuples the generators yield. *)
Inductive pyobj : Type :=
| MemView (bs : list byte)
| Tuple (items : list pyobj).

(** [l[a:b]] for non-negative [a], [b]: both bounds are clamped to the length
    and an empty slice results when the clamped bounds cross. *)
Definition slice {A} (l : list A) (a b : N) : list A :=
  let n := N.of_nat (length l) in
  let a' := N.min a n in
  let b' := N.min b n in
  firstn (N.to_nat (b' - a')) (skipn (N.to_nat a') l).

Definition py_len (o : pyobj) : N :=
  match o with
  | MemView bs => N.of_nat (length bs)
  | Tuple items => N.of_nat (length items)
  end.

Definition py_slice (o : pyobj) (a b : N) : pyobj :=
  match o with
  | MemView bs => MemView (slice bs a b)
  | Tuple items => Tuple (slice items a b)
  end.

(** Big-endian unsigned value of a byte string. *)
Definition be_uint (bs : list byte) : N :=
  fold_left (fun acc b => acc * 256 + Byte.to_N b) bs 0.

(** [struct.unpack(">I", o)] ([width = 4]) and [struct.unpack(">H", o)]
    ([width = 2]): the argument must support the buffer protocol and hold
    exactly [width] bytes. *)
Definition struct_unpack (width : nat) (o : pyobj) : result N :=
  match o with
  | MemView bs =>
      if Nat.eqb (length bs) width then ret (be_uint bs) else raise StructError
  | Tuple _ => raise TypeError
  end.

(** [o.encode("ascii")]: [encode] is a method of [str]; neither a
    [memoryview] nor a [tuple] has such an attribute. *)
Definition py_encode_ascii (o : pyobj) : result pyobj :=
  match o with
  | MemView _ => raise AttributeError
  | Tuple _ => raise AttributeError
  end.

(** [o.tobytes()], a method of [memoryview]. *)
Definition py_tobytes (o : pyobj) : result (list byte) :=
  match o with
  | MemView bs => ret bs
  | Tuple _ => raise AttributeError
  end.

(* ================================================================== *)
(** * Generators                                                        *)
(* ================================================================== *)

(** How a generator stopped.  [Diverged] is the model's out-of-fuel marker;
    the decoders are shown never to reach it. *)
Inductive stop : Type :=
| Exhausted
| Raised (e : exn)
| Diverged.

Record gen (A : Type) : Type := Gen { yielded : list A; stopped : stop }.
Arguments Gen {A} _ _.
Arguments yielded {A} _.
Arguments stopped {A} _.

Definition gen_cons {A} (a : A) (g : gen A) : gen A :=
  Gen (a :: yielded g) (stopped g).

Definition gen_prepend {A} (xs : list A) (g : gen A) : gen A :=
  Gen (xs ++ yielded g) (stopped g).

(** One pass through the body of a decoder's [while] loop. *)
Inductive step (A : Type) : Type :=
| Break
| Throw (e : exn)
| Yield (r : A) (advance : N).
Arguments Break {A}.
Arguments Throw {A} _.
Arguments Yield {A} _ _.

Definition step_of {A} (m : result (A * N)) : step A :=
  match m with
  | inl e => Throw e
  | inr (r, adv) => Yield r adv
  end.

(** [while offset + hs <= total: <body>; offset += advance], where the body
    yields one record per pass. *)
Fixpoint while_yield {A} (hs total : N) (body : N -> step A)
    (fuel : nat) (offset : N) : gen A :=
  match fuel with
  | O => Gen [] Diverged
  | S fuel' =>
      if offset + hs <=? total then
        match body offset with
        | Break => Gen [] Exhausted
        | Throw e => Gen [] (Raised e)
        | Yield r adv =>
            gen_cons r (while_yield hs total body fuel' (offset + adv))
        end
      else Gen [] Exhausted
  end.

(** [for x in g: <f x>] where the loop body is itself a generator fragment:
    the items of [g] are taken in order, the loop stops at the first body
    that does not run to exhaustion, and otherwise ends the way [g] ended. *)
Fixpoint for_items {A B} (xs : list A) (tail : stop) (f : A -> gen B) : gen B :=
  match xs with
  | [] => Gen [] tail
  | x :: xs' =>
      match stopped (f x) with
      | Exhausted => gen_prepend (yielded (f x)) (for_items xs' tail f)
      | s => Gen (yielded (f x)) s
      end
  end.

Definition for_each {A B} (g : gen A) (f : A -> gen B) : gen B :=
  for_items (yielded g) (stopped g) f.

Definition yield_one {A} (a : A) : gen A := Gen [a] Exhausted.

(* ================================================================== *)
(** * The four layer decoders                                           *)
(* ================================================================== *)

(** [gzip.decompress], an external library function. *)
Definition decompressor : Type := list byte -> result (list byte).

Definition parse_layer1_body (gzip_decompress : decompressor)
    (mm_view : pyobj) (offset : N) : step (pyobj * pyobj) :=
  let header := py_slice mm_view offset (offset + 35) in
  if py_len header <? 35 then Break else
  step_of (
    vid <- py_encode_ascii (py_slice header 0 18) ;;
    data_len <- struct_unpack 4 (py_slice header 31 35) ;;
    let comp_data := py_slice mm_view (offset + 35) (offset + 35 + data_len) in
    raw <- py_tobytes comp_data ;;
    decompressed <- gzip_decompress raw ;;
    ret ((vid, MemView decompressed), 35 + data_len)).

Definition parse_layer1_fuel (gzip_decompress : decompressor) (fuel : nat)
    (mm_view : pyobj) (offset : N) : gen (pyobj * pyobj) :=
  while_yield 35 (py_len mm_view) (parse_layer1_body gzip_decompress mm_view)
    fuel offset.

Definition parse_layer2_body (decompressed_data : pyobj) (offset : N)
    : step (pyobj * pyobj) :=
  let header := py_slice decompressed_data offset (offset + 16) in
  if py_len header <? 16 then Break else
  step_of (
    data_len <- struct_unpack 2 (py_slice header 14 16) ;;
    let frame_seqs :=
      py_slice decompressed_data (offset + 16) (offset + 16 + data_len) in
    ret ((header, frame_seqs), 16 + data_len)).

Definition parse_layer2_fuel (fuel : nat) (decompressed_data : pyobj)
    (offset : N) : gen (pyobj * pyobj) :=
  while_yield 16 (py_len decompressed_data)
    (parse_layer2_body decompressed_data) fuel offset.

Definition parse_layer3_body (frame_seqs : pyobj) (offset : N)
    : step (pyobj * pyobj) :=
  let header := py_slice frame_seqs offset (offset + 8) in
  if py_len header <? 8 then Break else
  step_of (
    data_len <- struct_unpack 4 (py_slice header 4 8) ;;
    let frame_seq := py_slice frame_seqs (offset + 8) (offset + 8 + data_len) in
    ret ((header, frame_seq), 8 + data_len)).

Definition parse_layer3_fuel (fuel : nat) (frame_seqs : pyobj) (offset : N)
    : gen (pyobj * pyobj) :=
  while_yield 8 (py_len frame_seqs) (parse_layer3_body frame_seqs) fuel offset.

Definition parse_layer4_body (frame_seq : pyobj) (offset : N)
    : step (pyobj * pyobj) :=
  let header := py_slice frame_seq offset (offset + 4) in
  if py_len header <? 4 then Break else
  step_of (
    data_len <- struct_unpack 2 (py_slice header 2 4) ;;
    let frame := py_slice frame_seq (offset + 4) (offset + 4 + data_len) in
    ret ((header, frame), 4 + data_len)).

Definition parse_layer4_fuel (fuel : nat) (frame_seq : pyobj) (offset : N)
    : gen (pyobj * pyobj) :=
  while_yield 4 (py_len frame_seq) (parse_layer4_body frame_seq) fuel offset.

(** Every pass of a decoder's loop moves the offset forward by at least one
    header, so one more pass than the span has items always suffices. *)
Definition enough_fuel (o : pyobj) : nat := S (N.to_nat (py_len o)).

Definition parse_layer1 (gzip_decompress : decompressor) (mm_view : pyobj)
    : gen (pyobj * pyobj) :=
  parse_layer1_fuel gzip_decompress (enough_fuel mm_view) mm_view 0.

Definition parse_layer2 (decompressed_data : pyobj) : gen (pyobj * pyobj) :=
  parse_layer2_fuel (enough_fuel decompressed_data) decompressed_data 0.

Definition parse_layer3 (frame_seqs : pyobj) : gen (pyobj * pyobj) :=
  parse_layer3_fuel (enough_fuel frame_seqs) frame_seqs 0.

Definition parse_layer4 (frame_seq : pyobj) : gen (pyobj * pyobj) :=
  parse_layer4_fuel (enough_fuel frame_seq) frame_seq 0.

(* ================================================================== *)
(** * The frame extractor                                               *)
(* ================================================================== *)

(** A loop variable bound to a whole yielded record holds the 2-tuple. *)
Definition as_tuple (r : pyobj * pyobj) : pyobj := Tuple [fst r; snd r].

(** The body of the outer [for vid, decompressed_data in ...] loop. *)
Definition frames_of_segment (vid decompressed_data : pyobj)
    : gen (pyobj * pyobj) :=
  for_each (parse_layer2 decompressed_data) (fun frame_seqs =>
    for_each (parse_layer3 (as_tuple frame_seqs)) (fun frame_seq =>
      for_each (parse_layer3 (as_tuple frame_seq)) (fun frame =>
        yield_one (vid, as_tuple frame)))).

Definition extract_frames (gzip_decompress : decompressor) (mm_view : pyobj)
    : gen (pyobj * pyobj) :=
  for_each (parse_layer1 gzip_decompress mm_view) (fun r =>
    frames_of_segment (fst r) (snd r)).

(** The composition the design document words: each loop draws its records
    from the payload of the enclosing record, the innermost loop runs the
    fourth decoder, and the segment's source identifier is the first 18 bytes
    of its header.  Kept apart from [extract_frames] to compare the two. *)
Definition layer1_spec_body (gzip_decompress : decompressor)
    (mm_view : pyobj) (offset : N) : step (pyobj * pyobj) :=
  let header := py_slice mm_view offset (offset + 35) in
  if py_len header <? 35 then Break else
  step_of (
    let source_id := py_slice header 0 18 in
    data_len <- struct_unpack 4 (py_slice header 31 35) ;;
    let comp_data := py_slice mm_view (offset + 35) (offset + 35 + data_len) in
    raw <- py_tobytes comp_data ;;
    decompressed <- gzip_decompress raw ;;
    ret ((source_id, MemView decompressed), 35 + data_len)).

Definition layer1_spec (gzip_decompress : decompressor) (mm_view : pyobj)
    : gen (pyobj * pyobj) :=
  while_yield 35 (py_len mm_view) (layer1_spec_body gzip_decompress mm_view)
    (enough_fuel mm_view) 0.

Definition extract_frames_spec (gzip_decompress : decompressor)
    (mm_view : pyobj) : gen (pyobj * pyobj) :=
  for_each (layer1_spec gzip_decompress mm_view) (fun l1 =>
    for_each (parse_layer2 (snd l1)) (fun l2 =>
      for_each (parse_layer3 (snd l2)) (fun l3 =>
        for_each (parse_layer4 (snd l3)) (fun l4 =>
          yield_one (fst l1, snd l4))))).

(* ================================================================== *)
(** * Files, workers and the directory run                              *)
(* ================================================================== *)

Definition path : Type := string.
Bind Scope string_scope with path.

(** What a call does: it returns, it raises, or (in the model only) the
    generator it drives ran out of fuel. *)
Inductive outcome (A : Type) : Type :=
| Returned (a : A)
| Failed (e : exn)
| Hung.
Arguments Returned {A} _.
Arguments Failed {A} _.
Arguments Hung {A}.

Section Processing.

(** Rows are produced by the external decoder and are opaque here. *)
Variable row : Type.

Inductive message : Type :=
| MsgInputFile (p : path)
| MsgOutputFile (p : path)
| MsgNoFiles
| MsgDone (f out_file : path)
| MsgFailed (f : path) (e : exn).

(** Observable effects, in the order they happen. *)
Inductive event : Type :=
| EvFileOpen (p : path)
| EvFileClose (p : path)
| EvMmap (p : path)
| EvViewRelease (p : path)
| EvMmapClose (p : path)
| EvMkdir (p : path)
| EvPrint (m : message)
| EvWriteParquet (p : path) (rows : list row)
| EvPbarOpen (total : nat)
| EvPbarUpdate (n : nat)
| EvPbarClose.

(** The world outside the module: the file system, [gzip], [pathlib] and the
    columnar writer ([pl.DataFrame(rows).write_parquet(path)]). *)
Record host : Type := Host {
  fs_read : path -> option (list byte);
  gzip_decompress : decompressor;
  relative_to : path -> path -> result path;
  joinpath : path -> path -> path;
  parent : path -> path;
  mkdir_parents : path -> result unit;
  with_suffix : path -> string -> result path;
  write_parquet : list row -> path -> result unit
}.

(** The attributes of a [FileParser] instance. *)
Record FileParser : Type := MkFileParser {
  input_dir : path;
  output_dir : path;
  decode_frame : pyobj -> pyobj -> result (list row);
  max_workers : N
}.

Definition io (A : Type) : Type := list event -> outcome A * list event.

Definition io_ret {A} (a : A) : io A := fun log => (Returned a, log).
Definition io_raise {A} (e : exn) : io A := fun log => (Failed e, log).
Definition io_hang {A} : io A := fun log => (Hung, log).
Definition io_bind {A B} (m : io A) (k : A -> io B) : io B :=
  fun log =>
    match m log with
    | (Returned a, log') => k a log'
    | (Failed e, log') => (Failed e, log')
    | (Hung, log') => (Hung, log')
    end.
Definition emit (e : event) : io unit := fun log => (Returned tt, log ++ [e]).
Definition lift {A} (r : result A) : io A :=
  match r with
  | inl e => io_raise e
  | inr a => io_ret a
  end.

(** [try: m finally: cleanup] *)
Definition try_finally {A} (m : io A) (cleanup : io unit) : io A :=
  fun log =>
    match m log with
    | (Returned a, log') => io_bind cleanup (fun _ => io_ret a) log'
    | (Failed e, log') => io_bind cleanup (fun _ => io_raise e) log'
    | (Hung, log') => (Hung, log')
    end.

(** [try: m except Exception as e: handler e] *)
Definition try_except {A} (m : io A) (handler : exn -> io A) : io A :=
  fun log =>
    match m log with
    | (Failed e, log') => handler e log'
    | r => r
    end.

Notation "x <~ m ;; k" := (io_bind m (fun x => k))
  (at level 61, m at next level, right associativity).
Notation "m ;;; k" := (io_bind m (fun _ => k))
  (at level 61, right associativity).

(** A live [mmap] object: the file it maps and the bytes it exposes. *)
Record mapping : Type := Mapping { mm_path : path; mm_bytes : list byte }.

(** [with file_path.open("rb") as f: <body>]: the file object is closed when
    the block is left, whichever way. *)
Definition with_open {A} (h : host) (file_path : path)
    (body : list byte -> io A) : io A :=
  match fs_read h file_path with
  | None => io_raise FileNotFoundError
  | Some content =>
      emit (EvFileOpen file_path) ;;;
      try_finally (body content) (emit (EvFileClose file_path))
  end.

(** [mmap.mmap(f.fileno(), 0, access=mmap.ACCESS_READ)]: length 0 asks for
    the whole file, and the library refuses to map a file of size zero
    ([ValueError: cannot mmap an empty file]).  The mapping keeps its own
    duplicate of the descriptor until it is closed. *)
Definition mmap_mmap (file_path : path) (content : list byte) : io mapping :=
  match content with
  | [] => io_raise ValueError
  | _ :: _ => emit (EvMmap file_path) ;;; io_ret (Mapping file_path content)
  end.

Definition mmap_file (h : host) (file_path : path) : io mapping :=
  with_open h file_path (fun f =>
    mm <~ mmap_mmap file_path f ;;
    io_ret mm).

(** The [for vid, frame in self.extract_frames(mm_view)] loop of
    [process_file], driven over the generator's trace. *)
Fixpoint collect_rows (self : FileParser) (frames : list (pyobj * pyobj))
    (tail : stop) (all_rows : list row) : io (list row) :=
  match frames with
  | [] =>
      match tail with
      | Exhausted => io_ret all_rows
      | Raised e => io_raise e
      | Diverged => io_hang
      end
  | (vid, frame) :: rest =>
      rows <~ lift (decode_frame self vid frame) ;;
      collect_rows self rest tail (all_rows ++ rows)
  end.

Definition process_file (self : FileParser) (h : host) (file_path : path)
    : io path :=
  mm <~ mmap_file h file_path ;;
  let mm_view := MemView (mm_bytes mm) in
  let frames := extract_frames (gzip_decompress h) mm_view in
  all_rows <~ collect_rows self (yielded frames) (stopped frames) [] ;;
  relative_path <~ lift (relative_to h file_path (input_dir self)) ;;
  let out_file := joinpath h (output_dir self) relative_path in
  _ <~ lift (mkdir_parents h (parent h out_file)) ;;
  emit (EvMkdir (parent h out_file)) ;;;
  emit (EvPrint (MsgInputFile file_path)) ;;;
  emit (EvPrint (MsgOutputFile out_file)) ;;;
  out_file <~ lift (with_suffix h out_file ".parquet") ;;
  _ <~ lift (write_parquet h all_rows out_file) ;;
  emit (EvWriteParquet out_file all_rows) ;;;
  emit (EvViewRelease (mm_path mm)) ;;;
  emit (EvMmapClose (mm_path mm)) ;;;
  io_ret out_file.

(** [future.result()] in the coordinator: the worker ran [process_file] in a
    process of its own, so only its outcome crosses over. *)
Definition future_result (self : FileParser) (h : host) (f : path) : io path :=
  fun log => (fst (process_file self h f []), log).

(** The [for future in as_completed(future_to_file)] loop; [completed] lists
    the submitted files in the order their futures complete. *)
Fixpoint drain (self : FileParser) (h : host) (completed : list path)
    : io unit :=
  match completed with
  | [] => io_ret tt
  | f :: rest =>
      try_except
        (out_file <~ future_result self h f ;;
         emit (EvPbarUpdate 1) ;;;
         emit (EvPrint (MsgDone f out_file)))
        (fun e => emit (EvPrint (MsgFailed f e))) ;;;
      drain self h rest
  end.

(** [files] is what [rglob("*.bin")] found. *)
Definition process_directory (self : FileParser) (h : host)
    (files completed : list path) : io unit :=
  match files with
  | [] => emit (EvPrint MsgNoFiles)
  | _ :: _ => io_ret tt
  end ;;;
  emit (EvPbarOpen (List.length files)) ;;;
  try_finally (drain self h completed) (emit EvPbarClose).

(** Counting effects in a log. *)
Definition is_file_open (e : event) : bool :=
  match e with EvFileOpen _ => true | _ => false end.
Definition is_file_close (e : event) : bool :=
  match e with EvFileClose _ => true | _ => false end.
Definition is_mmap (e : event) : bool :=
  match e with EvMmap _ => true | _ => false end.
Definition is_mmap_close (e : event) : bool :=
  match e with EvMmapClose _ => true | _ => false end.
Definition is_view_release (e : event) : bool :=
  match e with EvViewRelease _ => true | _ => false end.
Definition is_pbar_update (e : event) : bool :=
  match e with EvPbarUpdate _ => true | _ => false end.
Definition count_events (p : event -> bool) (log : list event) : nat :=
  List.length (filter p log).

End Processing.

Arguments EvFileOpen {row} _.
Arguments EvFileClose {row} _.
Arguments EvMmap {row} _.
Arguments EvViewRelease {row} _.
Arguments EvMmapClose {row} _.
Arguments EvMkdir {row} _.
Arguments EvPrint {row} _.
Arguments EvWriteParquet {row} _ _.
Arguments EvPbarOpen {row} _.
Arguments EvPbarUpdate {row} _.
Arguments EvPbarClose {row}.
Arguments Host {row} _ _ _ _ _ _ _ _.
Arguments fs_read {row} _ _.
Arguments gzip_decompress {row} _ _.
Arguments relative_to {row} _ _ _.
Arguments joinpath {row} _ _ _.
Arguments parent {row} _ _.
Arguments mkdir_parents {row} _ _.
Arguments with_suffix {row} _ _ _.
Arguments write_parquet {row} _ _ _.
Arguments MkFileParser {row} _ _ _ _.
Arguments input_dir {row} _.
Arguments output_dir {row} _.
Arguments decode_frame {row} _ _ _.
Arguments max_workers {row} _.
Arguments io_ret {row A} _ _.
Arguments io_raise {row A} _ _.
Arguments io_hang {row A} _.
Arguments io_bind {row A B} _ _ _.
Arguments emit {row} _ _.
Arguments lift {row A} _ _.
Arguments try_finally {row A} _ _ _.
Arguments try_except {row A} _ _ _.
Arguments with_open {row A} _ _ _ _.
Arguments mmap_mmap {row} _ _ _.
Arguments mmap_file {row} _ _ _.
Arguments collect_rows {row} _ _ _ _ _.
Arguments process_file {row} _ _ _ _.
Arguments future_result {row} _ _ _ _.
Arguments drain {row} _ _ _ _.
Arguments process_directory {row} _ _ _ _ _.
Arguments is_file_open {row} _.
Arguments is_file_close {row} _.
Arguments is_mmap {row} _.
Arguments is_mmap_close {row} _.
Arguments is_view_release {row} _.
Arguments is_pbar_update {row} _.
Arguments count_events {row} _ _.

(* ================================================================== *)
(** * Vocabulary of the statements                                      *)
(* ================================================================== *)

(** The fields of the record whose header starts at [off] in the span [d],
    for a layer with header size [hs] and a [w]-byte length field at header
    offset [lo]. *)
Definition header_at (hs : N) (d : list byte) (off : N) : pyobj :=
  MemView (slice d off (off + hs)).

Definition declared_at (lo : N) (w : nat) (d : list byte) (off : N) : N :=
  be_uint (slice d (off + lo) (off + lo + N.of_nat w)).

Definition payload_at (hs lo : N) (w : nat) (d : list byte) (off : N) : pyobj :=
  MemView (slice d (off + hs) (off + hs + declared_at lo w d off)).

Definition record_at (hs lo : N) (w : nat) (d : list byte) (off : N)
    : pyobj * pyobj :=
  (header_at hs d off, payload_at hs lo w d off).

(** The length a yielded record's own header declares. *)
Definition declared_by (lo : N) (w : nat) (r : pyobj * pyobj) : result N :=
  struct_unpack w (py_slice (fst r) lo (lo + N.of_nat w)).

(** The common shape of the loop bodies of layers 2 to 4. *)
Definition framed_body (hs lo : N) (w : nat) (data : pyobj) (offset : N)
    : step (pyobj * pyobj) :=
  let header := py_slice data offset (offset + hs) in
  if py_len header <? hs then Break else
  step_of (
    data_len <- struct_unpack w (py_slice header lo (lo + N.of_nat w)) ;;
    let payload := py_slice data (offset + hs) (offset + hs + data_len) in
    ret ((header, payload), hs + data_len)).

Definition framed (hs lo : N) (w : nat) (fuel : nat) (data : pyobj)
    (offset : N) : gen (pyobj * pyobj) :=
  while_yield hs (py_len data) (framed_body hs lo w data) fuel offset.

(** The three decoders whose records are a header followed by a payload
    span of the same buffer. *)
Inductive framed_layer : Type := Layer2 | Layer3 | Layer4.

Definition header_size (l : framed_layer) : N :=
  match l with Layer2 => 16 | Layer3 => 8 | Layer4 => 4 end.

Definition length_offset (l : framed_layer) : N :=
  match l with Layer2 => 14 | Layer3 => 4 | Layer4 => 2 end.

Definition length_width (l : framed_layer) : nat :=
  match l with Layer2 => 2%nat | Layer3 => 4%nat | Layer4 => 2%nat end.

Definition decode_fuel (l : framed_layer)
    : nat -> pyobj -> N -> gen (pyobj * pyobj) :=
  match l with
  | Layer2 => parse_layer2_fuel
  | Layer3 => parse_layer3_fuel
  | Layer4 => parse_layer4_fuel
  end.

Definition decode (l : framed_layer) (x : pyobj) : gen (pyobj * pyobj) :=
  match l with
  | Layer2 => parse_layer2 x
  | Layer3 => parse_layer3 x
  | Layer4 => parse_layer4 x
  end.

(** The decoder's loop entered at offset [off] of the span [d]. *)
Definition decode_from (l : framed_layer) (d : list byte) (off : N)
    : gen (pyobj * pyobj) :=
  decode_fuel l (enough_fuel (MemView d)) (MemView d) off.

(** The record layer [l] reads at offset [off] of [d]. *)
Definition layer_record (l : framed_layer) (d : list byte) (off : N)
    : pyobj * pyobj :=
  record_at (header_size l) (length_offset l) (length_width l) d off.

Definition layer_declared (l : framed_layer) (d : list byte) (off : N) : N :=
  declared_at (length_offset l) (length_width l) d off.

Definition layer_body (l : framed_layer) : pyobj -> N -> step (pyobj * pyobj) :=
  match l with
  | Layer2 => parse_layer2_body
  | Layer3 => parse_layer3_body
  | Layer4 => parse_layer4_body
  end.

(** The truncation policy as the design document states it: no error, and
    every yielded record carries a payload of its declared length. *)
Definition truncation_policy (lo : N) (w : nat) (g : gen (pyobj * pyobj))
    : Prop :=
  stopped g = Exhausted /\
  forall r, In r (yielded g) -> declared_by lo w r = inr (py_len (snd r)).

(** The worker's outcome for a file, and the line the coordinator prints
    for it. *)
Definition worker_outcome {row} (self : FileParser row) (h : host row)
    (f : path) : outcome path :=
  fst (process_file self h f []).

Definition succeeded {row} (self : FileParser row) (h : host row)
    (f : path) : bool :=
  match worker_outcome self h f with
  | Returned _ => true
  | _ => false
  end.

Definition reports {row} (self : FileParser row) (h : host row)
    (f : path) (e : event row) : Prop :=
  match worker_outcome self h f with
  | Returned out_file => e = EvPrint (MsgDone f out_file)
  | Failed err => e = EvPrint (MsgFailed f err)
  | Hung => False
  end.

(* ================================================================== *)
(** * Sample data                                                       *)
(* ================================================================== *)

(** One segment wrapping one L2/L3/L4 chain around the frame DE AD BE EF. *)
Definition sample_frame : list byte := [xde; xad; xbe; xef].
Definition sample_l4 : list byte := [x00; x00; x00; x04] ++ sample_frame.
Definition sample_l3 : list byte :=
  [x00; x00; x00; x00; x00; x00; x00; x08] ++ sample_l4.
Definition sample_l2 : list byte := repeat x00 14 ++ [x00; x10] ++ sample_l3.

(** [sample_l2] as a gzip member with one stored block. *)
Definition sample_gz : list byte :=
  [x1f; x8b; x08; x00; x00; x00; x00; x00; x00; xff; x01; x20; x00; xdf; xff]
  ++ sample_l2 ++ [x4e; xb4; xdb; x1d; x20; x00; x00; x00].

(** "VEH000000000000001" *)
Definition sample_vid : list byte :=
  [x56; x45; x48; x30; x30; x30; x30; x30; x30; x30; x30; x30; x30; x30; x30;
   x30; x30; x31].

Definition sample_file : list byte :=
  sample_vid ++ repeat x00 13 ++ [x00; x00; x00; x37] ++ sample_gz.

Definition bytes_eqb (a b : list byte) : bool :=
  if list_eq_dec Byte.byte_eq_dec a b then true else false.

(** A decompressor that knows the sample member and rejects anything else. *)
Definition sample_gunzip : decompressor :=
  fun raw => if bytes_eqb raw sample_gz then ret sample_l2 else raise BadGzipFile.

(** An L2 span whose only record declares 5 payload bytes but is followed
    by 2. *)
Definition truncated_l2 : list byte := repeat x00 14 ++ [x00; x05; x01; x02].

(** A small host for the examples: three input files under [in], a
    simplified [pathlib] that is exact on the sample paths, directory
    creation and a writer that always succeed. *)
Definition sample_fs (p : path) : option (list byte) :=
  if String.eqb p "in/a.bin" then Some sample_file
  else if String.eqb p "in/short.bin" then Some [x00; x01; x02]
  else if String.eqb p "in/empty.bin" then Some []
  else None.

Fixpoint split_last (c : Ascii.ascii) (s : string) : option (string * string) :=
  match s with
  | EmptyString => None
  | String a rest =>
      match split_last c rest with
      | Some (before, after) => Some (String a before, after)
      | None => if Ascii.eqb a c then Some (EmptyString, rest) else None
      end
  end.

Definition sample_relative_to (p base : path) : result path :=
  let stem := String.append base "/" in
  if String.prefix stem p
  then ret (String.substring (String.length stem)
              (String.length p - String.length stem) p)
  else raise ValueError.

Definition sample_parent (p : path) : path :=
  match split_last "/"%char p with
  | Some (dir, _) => dir
  | None => "."%string
  end.

Definition sample_with_suffix (p : path) (suffix : string) : result path :=
  match split_last "."%char p with
  | Some (stem, _) => ret (String.append stem suffix)
  | None => ret (String.append p suffix)
  end.

Definition sample_host : host N :=
  Host sample_fs sample_gunzip sample_relative_to
    (fun a b => String.append a (String.append "/" b))
    sample_parent
    (fun _ => ret tt)
    sample_with_suffix
    (fun _ _ => ret tt).

(** A stub decoder returning one row per frame: the frame read as an
    integer. *)
Definition sample_decode (vid frame : pyobj) : result (list N) :=
  match frame with
  | MemView bs => ret [be_uint bs]
  | Tuple _ => raise TypeError
  end.

Definition sample_parser : FileParser N :=
  MkFileParser "in"%string "out"%string sample_decode 4.

(** The claim about files without frames, read on the file's bytes: if
    extraction over them yields nothing and ends normally, the file is
    processed successfully and an output with zero rows is written. *)
Definition zero_frames_succeed {row} (self : FileParser row) (h : host row)
    (file_path : path) : Prop :=
  forall content,
    fs_read h file_path = Some content ->
    extract_frames (gzip_decompress h) (MemView content) = Gen [] Exhausted ->
    exists out_file log,
      process_file self h file_path [] = (Returned out_file, log) /\
      In (EvWriteParquet out_file []) log.

(** The lines the coordinator prints per completed file. *)
Definition is_report {row} (e : event row) : bool :=
  match e with
  | EvPrint (MsgDone _ _) => true
  | EvPrint (MsgFailed _ _) => true
  | _ => false
  end.

(** What the coordinator does for one completed file. *)
Definition file_events {row} (self : FileParser row) (h : host row)
    (f : path) : list (event row) :=
  match worker_outcome self h f with
  | Returned out_file => [EvPbarUpdate 1; EvPrint (MsgDone f out_file)]
  | Failed e => [EvPrint (MsgFailed f e)]
  | Hung => []
  end.

(* ================================================================== *)
(** * The constructor, and vocabulary for further properties            *)
(* ================================================================== *)

(** [v or fallback] for a value that is [None] or a non-negative integer:
    [None] and [0] are falsy. *)
Definition or_else (v : option N) (fallback : N) : N :=
  match v with
  | Some n => if n =? 0 then fallback else n
  | None => fallback
  end.

(** [FileParser.__init__]: the attributes are stored, the output directory
    is made ([os.makedirs(output_dir, exist_ok=True)]), and [max_workers]
    defaults to [os.cpu_count()], then to 4.  [cpu_count] is what
    [os.cpu_count()] returns; worker counts are non-negative here. *)
Definition FileParser_init {row} (h : host row) (input output : path)
    (dbc_parser : pyobj -> pyobj -> result (list row))
    (max_workers cpu_count : option N) : io row (FileParser row) :=
  io_bind (lift (mkdir_parents h output)) (fun _ =>
  io_bind (emit (EvMkdir output)) (fun _ =>
  io_ret (MkFileParser input output dbc_parser
            (or_else max_workers (or_else cpu_count 4))))).

(** A record as bytes, and a sequence of records laid out back to back. *)
Definition as_record (hp : list byte * list byte) : pyobj * pyobj :=
  (MemView (fst hp), MemView (snd hp)).

Definition encode_records (rs : list (list byte * list byte)) : list byte :=
  concat (map (fun hp => fst hp ++ snd hp) rs).

(** A header of the layer's size whose length field holds the length of the
    payload that follows it. *)
Definition well_formed (l : framed_layer) (hp : list byte * list byte) : Prop :=
  N.of_nat (length (fst hp)) = header_size l /\
  be_uint (slice (fst hp) (length_offset l)
             (length_offset l + N.of_nat (length_width l))) =
  N.of_nat (length (snd hp)).

(** The bytes a yielded record covers. *)
Definition record_bytes (r : pyobj * pyobj) : list byte :=
  match r with
  | (MemView h, MemView p) => h ++ p
  | _ => []
  end.


(** The file a report line is about. *)
Definition reported_file {row} (e : event row) : list path :=
  match e with
  | EvPrint (MsgDone f _) => [f]
  | EvPrint (MsgFailed f _) => [f]
  | _ => []
  end.

Definition reported_files {row} (log : list (event row)) : list path :=
  flat_map reported_file log.

(** Two frames for the stub decoder. *)
Definition sample_frames : list (pyobj * pyobj) :=
  [(MemView sample_vid, MemView [x01]); (MemView sample_vid, MemView [x02; x00])].

(** What processing the three-byte sample file does. *)
Definition sample_short_log : list (event N) :=
  [EvFileOpen "in/short.bin"; EvMmap "in/short.bin";
   EvFileClose "in/short.bin"; EvMkdir "out";
   EvPrint (MsgInputFile "in/short.bin");
   EvPrint (MsgOutputFile "out/short.bin");
   EvWriteParquet "out/short.parquet" [];
   EvViewRelease "in/short.bin"; EvMmapClose "in/short.bin"].

(* ================================================================== *)
(** * Slices                                                            *)
(* ================================================================== *)

Lemma slice_length {A} (l : list A) (a b : N) :
  N.of_nat (length (slice l a b)) =
  N.min b (N.of_nat (length l)) - N.min a (N.of_nat (length l)).
Proof.
  unfold slice. rewrite length_firstn, length_skipn. lia.
Qed.

Lemma slice_header_length {A} (l : list A) (off hs : N) :
  off + hs <= N.of_nat (length l) ->
  N.of_nat (length (slice l off (off + hs))) = hs.
Proof.
  intros H. rewrite slice_length. lia.
Qed.

Lemma slice_slice {A} (l : list A) (a b c e : N) :
  b <= N.of_nat (length l) ->
  a + e <= b ->
  slice (slice l a b) c e = slice l (a + c) (a + e).
Proof.
  intros Hb He.
  unfold slice at 1.
  rewrite (slice_length l a b).
  unfold slice.
  rewrite skipn_firstn_comm, firstn_firstn, skipn_skipn.
  destruct (N.le_gt_cases c e) as [Hce | Hec].
  - f_equal; [ lia | f_equal; lia ].
  - match goal with
    | |- firstn ?n _ = firstn ?m _ =>
        replace n with 0%nat by lia; replace m with 0%nat by lia
    end.
    reflexivity.
Qed.

Lemma slice_to_end {A} (l : list A) (a b : N) :
  N.of_nat (length l) <= b ->
  slice l a b = slice l a (N.of_nat (length l)).
Proof.
  intros H. unfold slice. f_equal. lia.
Qed.

(* ================================================================== *)
(** * The decoding loop                                                 *)
(* ================================================================== *)

Section WhileYield.

Context {A : Type}.
Variables (hs total : N) (body : N -> step A).
Hypothesis hs_pos : 0 < hs.
Hypothesis body_advances :
  forall off r adv, body off = Yield r adv -> hs <= adv.

Lemma while_yield_more_fuel (fuel : nat) :
  forall off fuel',
    total - off < N.of_nat fuel -> (fuel <= fuel')%nat ->
    while_yield hs total body fuel' off = while_yield hs total body fuel off.
Proof.
  induction fuel as [|fuel IH]; intros off fuel' Hlt Hle; [ lia | ].
  destruct fuel' as [|fuel']; [ lia | ].
  simpl.
  destruct (off + hs <=? total) eqn:Hguard; [ | reflexivity ].
  apply N.leb_le in Hguard.
  destruct (body off) as [ | e | r adv ] eqn:Hbody; try reflexivity.
  apply body_advances in Hbody.
  rewrite (IH (off + adv) fuel'); [ reflexivity | lia | lia ].
Qed.

Lemma while_yield_not_diverged (fuel : nat) :
  forall off,
    total - off < N.of_nat fuel ->
    stopped (while_yield hs total body fuel off) <> Diverged.
Proof.
  induction fuel as [|fuel IH]; intros off Hlt; [ lia | ].
  simpl.
  destruct (off + hs <=? total) eqn:Hguard; [ | discriminate ].
  apply N.leb_le in Hguard.
  destruct (body off) as [ | e | r adv ] eqn:Hbody; try discriminate.
  apply body_advances in Hbody.
  simpl. apply IH. lia.
Qed.

Lemma while_yield_count (fuel : nat) :
  forall off,
    N.of_nat (length (yielded (while_yield hs total body fuel off))) * hs
    <= total - off.
Proof.
  induction fuel as [|fuel IH]; intros off; cbn [while_yield]; [ cbn; lia | ].
  destruct (off + hs <=? total) eqn:Hguard; [ | cbn; lia ].
  apply N.leb_le in Hguard.
  destruct (body off) as [ | e | r adv ] eqn:Hbody; try (cbn; lia).
  apply body_advances in Hbody.
  specialize (IH (off + adv)).
  cbn [gen_cons yielded length].
  rewrite Nat2N.inj_succ, N.mul_succ_l. lia.
Qed.

End WhileYield.

(* ================================================================== *)
(** * Facts about the Python primitives                                 *)
(* ================================================================== *)

Lemma py_len_slice (o : pyobj) (off hs : N) :
  off + hs <= py_len o -> py_len (py_slice o off (off + hs)) = hs.
Proof.
  destruct o as [bs | items]; cbn [py_len py_slice]; apply slice_header_length.
Qed.

Lemma py_encode_ascii_raises (o : pyobj) :
  py_encode_ascii o = raise AttributeError.
Proof.
  destruct o; reflexivity.
Qed.

Lemma enough_fuel_spec (o : pyobj) (off : N) :
  py_len o - off < N.of_nat (enough_fuel o).
Proof.
  unfold enough_fuel. lia.
Qed.

(* ================================================================== *)
(** * Layers 2 to 4 on a byte span                                      *)
(* ================================================================== *)

Lemma parse_layer2_framed :
  parse_layer2_fuel = framed 16 14 2.
Proof. reflexivity. Qed.

Lemma parse_layer3_framed :
  parse_layer3_fuel = framed 8 4 4.
Proof. reflexivity. Qed.

Lemma parse_layer4_framed :
  parse_layer4_fuel = framed 4 2 2.
Proof. reflexivity. Qed.

Lemma framed_body_advances (hs lo : N) (w : nat) (data : pyobj) :
  forall off r adv, framed_body hs lo w data off = Yield r adv -> hs <= adv.
Proof.
  intros off r adv. unfold framed_body.
  destruct (py_len _ <? hs); [ discriminate | ].
  destruct (struct_unpack w _) as [e | n]; cbn; [ discriminate | ].
  intros H. injection H as _ H. lia.
Qed.

Section Framed.

Variables (hs lo : N) (w : nat) (d : list byte).
Hypothesis hs_pos : 0 < hs.
Hypothesis field_in_header : lo + N.of_nat w <= hs.

Let total : N := N.of_nat (length d).

Lemma declared_by_record_at (off : N) :
  off + hs <= total ->
  declared_by lo w (record_at hs lo w d off) = inr (declared_at lo w d off).
Proof.
  intros Hfit. unfold declared_by, record_at, header_at, declared_at.
  cbn [fst py_slice struct_unpack].
  rewrite slice_slice by (subst total; lia).
  rewrite N.add_assoc.
  replace (Nat.eqb _ w) with true; [ reflexivity | ].
  symmetry. apply Nat.eqb_eq. apply Nat2N.inj.
  rewrite slice_length. subst total. lia.
Qed.

Lemma framed_body_at (off : N) :
  off + hs <= total ->
  framed_body hs lo w (MemView d) off =
  Yield (record_at hs lo w d off) (hs + declared_at lo w d off).
Proof.
  intros Hfit. unfold framed_body.
  rewrite py_len_slice by exact Hfit.
  rewrite N.ltb_irrefl.
  pose proof (declared_by_record_at off Hfit) as Hdecl.
  unfold declared_by, record_at, header_at in Hdecl. cbn [fst] in Hdecl.
  cbn [py_slice] in *. rewrite Hdecl. reflexivity.
Qed.

Lemma payload_at_length (off : N) :
  py_len (payload_at hs lo w d off) =
  N.min (declared_at lo w d off) (total - (off + hs)).
Proof.
  unfold payload_at. cbn [py_len]. rewrite slice_length. subst total. lia.
Qed.

Lemma framed_stop (fuel : nat) (off : N) :
  total < off + hs ->
  yielded (framed hs lo w fuel (MemView d) off) = [].
Proof.
  intros Hgt. destruct fuel as [|fuel]; [ reflexivity | ].
  unfold framed. cbn [while_yield py_len].
  replace (off + hs <=? _) with false; [ reflexivity | ].
  symmetry. apply N.leb_gt. exact Hgt.
Qed.

Lemma framed_unfold (fuel : nat) (off : N) :
  off + hs <= total ->
  framed hs lo w (S fuel) (MemView d) off =
  gen_cons (record_at hs lo w d off)
    (framed hs lo w fuel (MemView d) (off + (hs + declared_at lo w d off))).
Proof.
  intros Hfit. unfold framed. cbn [while_yield py_len].
  replace (off + hs <=? _) with true by (symmetry; apply N.leb_le; exact Hfit).
  rewrite framed_body_at by exact Hfit. reflexivity.
Qed.

Lemma framed_more_fuel (fuel fuel' : nat) (off : N) :
  total - off < N.of_nat fuel -> total - off < N.of_nat fuel' ->
  framed hs lo w fuel (MemView d) off = framed hs lo w fuel' (MemView d) off.
Proof.
  intros H H'. unfold framed.
  destruct (Nat.le_ge_cases fuel fuel') as [Hle | Hle].
  - symmetry. apply while_yield_more_fuel;
      [ exact hs_pos | apply framed_body_advances | exact H | exact Hle ].
  - apply while_yield_more_fuel;
      [ exact hs_pos | apply framed_body_advances | exact H' | exact Hle ].
Qed.

Lemma framed_stopped (fuel : nat) :
  forall off,
    total - off < N.of_nat fuel ->
    stopped (framed hs lo w fuel (MemView d) off) = Exhausted.
Proof.
  induction fuel as [|fuel IH]; intros off Hlt; [ lia | ].
  destruct (N.le_gt_cases (off + hs) total) as [Hfit | Hgt].
  - rewrite framed_unfold by exact Hfit. cbn [gen_cons stopped].
    apply IH. lia.
  - unfold framed. cbn [while_yield py_len].
    replace (off + hs <=? _) with false; [ reflexivity | ].
    symmetry. apply N.leb_gt. exact Hgt.
Qed.

(** Every yielded record is the record read at some offset of the scan, and
    the records after it are what the loop yields from the offset just past
    the declared payload. *)
Lemma framed_yields_inv (fuel : nat) :
  forall off pre r post,
    total - off < N.of_nat fuel ->
    yielded (framed hs lo w fuel (MemView d) off) = pre ++ r :: post ->
    exists o,
      off <= o /\ o + hs <= total /\
      r = record_at hs lo w d o /\
      (pre = [] -> o = off) /\
      forall fuel',
        total - (o + (hs + declared_at lo w d o)) < N.of_nat fuel' ->
        post =
        yielded (framed hs lo w fuel' (MemView d)
                   (o + (hs + declared_at lo w d o))).
Proof.
  induction fuel as [|fuel IH]; intros off pre r post Hlt Hy; [ lia | ].
  destruct (N.le_gt_cases (off + hs) total) as [Hfit | Hgt].
  - rewrite framed_unfold in Hy by exact Hfit. cbn [gen_cons yielded] in Hy.
    destruct pre as [|x pre].
    + cbn [app] in Hy. injection Hy as Hr Hpost.
      exists off. repeat split; try lia; auto.
      intros fuel' Hfuel'. rewrite <- Hpost. f_equal.
      apply framed_more_fuel; [ lia | exact Hfuel' ].
    + cbn [app] in Hy. injection Hy as _ Hrest.
      destruct (IH (off + (hs + declared_at lo w d off)) pre r post)
        as (o & Ho & Hfit' & Hr & _ & Hpost); [ lia | exact Hrest | ].
      exists o. repeat split; try lia; auto. discriminate.
  - rewrite framed_stop in Hy by exact Hgt. destruct pre; discriminate.
Qed.

End Framed.

(* ================================================================== *)
(** * Layer 1 and the frame extractor                                   *)
(* ================================================================== *)

Lemma while_yield_no_yield {A} (hs total : N) (body : N -> step A) :
  (forall off r adv, body off <> Yield r adv) ->
  forall fuel off, yielded (while_yield hs total body fuel off) = [].
Proof.
  intros Hbody fuel off. destruct fuel as [|fuel]; [ reflexivity | ].
  cbn [while_yield].
  destruct (off + hs <=? total); [ | reflexivity ].
  destruct (body off) as [ | e | r adv ] eqn:Hb; try reflexivity.
  exfalso. exact (Hbody _ _ _ Hb).
Qed.

Lemma parse_layer1_body_cases (gz : decompressor) (mm : pyobj) (off : N) :
  parse_layer1_body gz mm off = Break \/
  parse_layer1_body gz mm off = Throw AttributeError.
Proof.
  unfold parse_layer1_body.
  destruct (py_len _ <? 35); [ left; reflexivity | right ].
  rewrite py_encode_ascii_raises. reflexivity.
Qed.

Lemma parse_layer1_body_never_yields (gz : decompressor) (mm : pyobj) :
  forall off r adv, parse_layer1_body gz mm off <> Yield r adv.
Proof.
  intros off r adv.
  destruct (parse_layer1_body_cases gz mm off) as [H | H]; rewrite H;
    discriminate.
Qed.

Lemma parse_layer1_never_yields (gz : decompressor) (mm : pyobj) :
  yielded (parse_layer1 gz mm) = [].
Proof.
  apply while_yield_no_yield. apply parse_layer1_body_never_yields.
Qed.

Lemma parse_layer1_short (gz : decompressor) (mm : pyobj) :
  py_len mm < 35 -> parse_layer1 gz mm = Gen [] Exhausted.
Proof.
  intros Hlt. unfold parse_layer1, parse_layer1_fuel, enough_fuel.
  cbn [while_yield].
  replace (0 + 35 <=? py_len mm) with false; [ reflexivity | ].
  symmetry. apply N.leb_gt. lia.
Qed.

Lemma parse_layer1_raises (gz : decompressor) (mm : pyobj) :
  35 <= py_len mm -> parse_layer1 gz mm = Gen [] (Raised AttributeError).
Proof.
  intros Hge. unfold parse_layer1, parse_layer1_fuel, enough_fuel.
  cbn [while_yield].
  replace (0 + 35 <=? py_len mm) with true
    by (symmetry; apply N.leb_le; lia).
  unfold parse_layer1_body.
  rewrite py_len_slice by lia. rewrite N.ltb_irrefl.
  rewrite py_encode_ascii_raises. reflexivity.
Qed.

Lemma for_items_nothing {A B} (f : A -> gen B) (tail : stop) :
  (forall x, f x = Gen [] Exhausted) ->
  forall xs, for_items xs tail f = Gen [] tail.
Proof.
  intros Hf. induction xs as [|x xs IH]; [ reflexivity | ].
  cbn [for_items]. rewrite Hf. cbn [stopped yielded].
  rewrite IH. reflexivity.
Qed.

Lemma parse_layer3_of_record (r : pyobj * pyobj) :
  parse_layer3 (as_tuple r) = Gen [] Exhausted.
Proof. reflexivity. Qed.

Lemma frames_of_segment_eq (vid d : pyobj) :
  frames_of_segment vid d = Gen [] (stopped (parse_layer2 d)).
Proof.
  unfold frames_of_segment, for_each.
  apply for_items_nothing. intros r.
  rewrite parse_layer3_of_record. reflexivity.
Qed.

Lemma extract_frames_eq (gz : decompressor) (mm : pyobj) :
  extract_frames gz mm = Gen [] (stopped (parse_layer1 gz mm)).
Proof.
  unfold extract_frames, for_each.
  rewrite parse_layer1_never_yields. reflexivity.
Qed.

(** C1.  The frame extractor is meant to yield, for every frame found by
    nesting the four decoders, the pair of source identifier and L4 payload.
    On the sample file (one segment, one L2/L3/L4 chain around DE AD BE EF)
    the composition as worded yields that one pair, while [extract_frames]
    stops with [AttributeError] and yields nothing.  Independently of layer
    1, the loops below it never yield either: each L2 record is handed to
    [parse_layer3] as a 2-tuple, and the innermost loop runs [parse_layer3]
    again where [parse_layer4] was meant. *)
Theorem extract_frames_misses_the_frames :
  extract_frames_spec sample_gunzip (MemView sample_file) =
    Gen [(MemView sample_vid, MemView sample_frame)] Exhausted /\
  extract_frames sample_gunzip (MemView sample_file) =
    Gen [] (Raised AttributeError) /\
  frames_of_segment (MemView sample_vid) (MemView sample_l2) =
    Gen [] Exhausted /\
  (forall gz mm, yielded (extract_frames gz mm) = []) /\
  (forall vid d, yielded (frames_of_segment vid d) = []).
Proof.
  split; [ vm_compute; reflexivity | ].
  split; [ vm_compute; reflexivity | ].
  split; [ vm_compute; reflexivity | ].
  split.
  - intros gz mm. rewrite extract_frames_eq. reflexivity.
  - intros vid d. rewrite frames_of_segment_eq. reflexivity.
Qed.

(** C4.  For a buffer holding a complete L1 record the source identifier
    should be the first 18 bytes of the header.  [parse_layer1] asks the
    header slice, a [memoryview], for its [encode] method and stops with
    [AttributeError] before yielding the record, whatever the decompressor;
    the decoder as worded yields the identifier and the inflated payload. *)
Theorem parse_layer1_raises_on_sample :
  (forall gz, parse_layer1 gz (MemView sample_file) =
              Gen [] (Raised AttributeError)) /\
  layer1_spec sample_gunzip (MemView sample_file) =
    Gen [(MemView sample_vid, MemView sample_l2)] Exhausted /\
  slice sample_file 0 18 = sample_vid /\
  length sample_vid = 18%nat.
Proof.
  split; [ | repeat split; vm_compute; reflexivity ].
  intros gz. apply parse_layer1_raises. vm_compute. discriminate.
Qed.

(* ================================================================== *)
(** * The framed layers, uniformly                                      *)
(* ================================================================== *)

Lemma decode_fuel_framed (l : framed_layer) :
  decode_fuel l = framed (header_size l) (length_offset l) (length_width l).
Proof. destruct l; reflexivity. Qed.

Lemma layer_body_framed (l : framed_layer) :
  layer_body l =
  framed_body (header_size l) (length_offset l) (length_width l).
Proof. destruct l; reflexivity. Qed.

Lemma decode_eq (l : framed_layer) (x : pyobj) :
  decode l x = decode_fuel l (enough_fuel x) x 0.
Proof. destruct l; reflexivity. Qed.

Lemma header_size_pos (l : framed_layer) : 0 < header_size l.
Proof. destruct l; reflexivity. Qed.

Lemma length_field_in_header (l : framed_layer) :
  length_offset l + N.of_nat (length_width l) <= header_size l.
Proof. destruct l; cbn; lia. Qed.

Lemma decode_from_zero (l : framed_layer) (d : list byte) :
  decode l (MemView d) = decode_from l d 0.
Proof. apply decode_eq. Qed.

(** C3.  Every record a framed decoder (L2: 16-byte header, 2-byte length
    at offset 14; L3: 8-byte header, 4-byte length at offset 4; L4: 4-byte
    header, 2-byte length at offset 2) yields is the record read at some
    offset [off] of the span; the big-endian integer in its header's length
    field is the one stored at that place of the span; and when the payload
    fits in the span its length is that integer and the records that follow
    are the ones the decoder yields from offset
    [off + header size + payload length].  The L1 decoder (35-byte header,
    4-byte length at offset 31) yields no record on any input, so the
    statement holds of it with nothing to check. *)
Theorem payload_length_and_next_record :
  (forall gz mm, yielded (parse_layer1 gz mm) = []) /\
  (forall (l : framed_layer) (d : list byte) pre r post,
     yielded (decode l (MemView d)) = pre ++ r :: post ->
     exists off,
       off + header_size l <= N.of_nat (length d) /\
       (pre = [] -> off = 0) /\
       r = layer_record l d off /\
       declared_by (length_offset l) (length_width l) r =
         inr (layer_declared l d off) /\
       (off + header_size l + layer_declared l d off <= N.of_nat (length d) ->
        py_len (snd r) = layer_declared l d off /\
        post =
        yielded (decode_from l d (off + header_size l + py_len (snd r))))).
Proof.
  split; [ exact parse_layer1_never_yields | ].
  intros l d pre r post Hy.
  rewrite decode_eq, decode_fuel_framed in Hy.
  pose proof (header_size_pos l) as Hpos.
  pose proof (length_field_in_header l) as Hfield.
  destruct (framed_yields_inv _ _ _ d Hpos Hfield _ 0 pre r post
              (enough_fuel_spec (MemView d) 0) Hy)
    as (off & _ & Hfit & Hr & Hfirst & Hpost).
  exists off. split; [ exact Hfit | ]. split; [ exact Hfirst | ].
  split; [ exact Hr | ].
  split.
  - rewrite Hr. apply declared_by_record_at; assumption.
  - intros Hfits.
    assert (Hlen : py_len (snd r) = layer_declared l d off).
    { rewrite Hr. unfold layer_record, layer_declared in *.
      cbn [record_at snd]. rewrite payload_at_length by assumption. lia. }
    split; [ exact Hlen | ].
    rewrite Hlen. unfold decode_from. rewrite decode_fuel_framed.
    rewrite <- N.add_assoc. apply Hpost.
    apply (enough_fuel_spec (MemView d)).
Qed.

(** The sample L2 span: its single record sits at offset 0, declares 16
    payload bytes, carries 16, and nothing follows it. *)
Lemma payload_length_and_next_record_witness :
  yielded (decode Layer2 (MemView sample_l2)) =
    [] ++ layer_record Layer2 sample_l2 0 :: [] /\
  exists off,
    off + header_size Layer2 <= N.of_nat (length sample_l2) /\
    (@nil (pyobj * pyobj) = [] -> off = 0) /\
    layer_record Layer2 sample_l2 0 = layer_record Layer2 sample_l2 off /\
    declared_by (length_offset Layer2) (length_width Layer2)
      (layer_record Layer2 sample_l2 0) =
      inr (layer_declared Layer2 sample_l2 off) /\
    (off + header_size Layer2 + layer_declared Layer2 sample_l2 off
       <= N.of_nat (length sample_l2) ->
     py_len (snd (layer_record Layer2 sample_l2 0)) =
       layer_declared Layer2 sample_l2 off /\
     [] =
     yielded
       (decode_from Layer2 sample_l2
          (off + header_size Layer2 +
           py_len (snd (layer_record Layer2 sample_l2 0))))).
Proof.
  split; [ vm_compute; reflexivity | ].
  apply (proj2 payload_length_and_next_record Layer2 sample_l2 []
           (layer_record Layer2 sample_l2 0) []).
  vm_compute. reflexivity.
Defined.

(** C2, as stated: a span whose last record declares more payload than
    remains should yield a sequence without that record and without any
    short payload.  On [truncated_l2] (one header declaring 5 bytes, 2 bytes
    left) [parse_layer2] yields the record with a 2-byte payload. *)
Lemma truncated_l2_breaks_the_policy :
  yielded (parse_layer2 (MemView truncated_l2)) =
    [(MemView (repeat x00 14 ++ [x00; x05]), MemView [x01; x02])] /\
  ~ truncation_policy 14 2 (parse_layer2 (MemView truncated_l2)).
Proof.
  split; [ vm_compute; reflexivity | ].
  intros [_ Hall].
  specialize (Hall (MemView (repeat x00 14 ++ [x00; x05]), MemView [x01; x02])).
  assert (Hin : In (MemView (repeat x00 14 ++ [x00; x05]), MemView [x01; x02])
                   (yielded (parse_layer2 (MemView truncated_l2)))).
  { vm_compute. left. reflexivity. }
  specialize (Hall Hin). vm_compute in Hall. discriminate.
Qed.

(** C2, amended.  On every byte span the L2, L3 and L4 decoders stop
    without raising.  No yielded payload is longer than the length its
    header declares; a record whose payload is shorter than declared is the
    last one yielded; and a record whose declared length exceeds the bytes
    left after its header is yielded with exactly those bytes as payload,
    after which the decoder stops. *)
Theorem truncated_record_is_yielded_short :
  forall (l : framed_layer) (d : list byte),
    stopped (decode l (MemView d)) = Exhausted /\
    (forall pre r post,
       yielded (decode l (MemView d)) = pre ++ r :: post ->
       exists n,
         declared_by (length_offset l) (length_width l) r = inr n /\
         py_len (snd r) <= n /\
         (py_len (snd r) < n -> post = [])) /\
    (forall off,
       off + header_size l <= N.of_nat (length d) ->
       N.of_nat (length d) < off + header_size l + layer_declared l d off ->
       decode_from l d off =
       Gen [(header_at (header_size l) d off,
             MemView (slice d (off + header_size l) (N.of_nat (length d))))]
           Exhausted).
Proof.
  intros l d.
  pose proof (header_size_pos l) as Hpos.
  pose proof (length_field_in_header l) as Hfield.
  split; [ | split ].
  - rewrite decode_eq, decode_fuel_framed.
    apply framed_stopped; try assumption.
    apply (enough_fuel_spec (MemView d)).
  - intros pre r post Hy.
    rewrite decode_eq, decode_fuel_framed in Hy.
    destruct (framed_yields_inv _ _ _ d Hpos Hfield _ 0 pre r post
                (enough_fuel_spec (MemView d) 0) Hy)
      as (off & _ & Hfit & Hr & _ & Hpost).
    exists (declared_at (length_offset l) (length_width l) d off).
    split; [ rewrite Hr; apply declared_by_record_at; assumption | ].
    assert (Hlen : py_len (snd r) =
                   N.min (declared_at (length_offset l) (length_width l) d off)
                         (N.of_nat (length d) - (off + header_size l))).
    { rewrite Hr. cbn [record_at snd]. apply payload_at_length; assumption. }
    split; [ lia | ].
    intros Hshort.
    rewrite (Hpost 1%nat) by lia.
    apply framed_stop; try assumption. lia.
  - intros off Hfit Hover.
    unfold decode_from, layer_declared in *.
    rewrite decode_fuel_framed. unfold enough_fuel.
    rewrite framed_unfold by assumption.
    set (next := off + (header_size l +
                        declared_at (length_offset l) (length_width l) d off)).
    assert (Hnone : yielded (framed (header_size l) (length_offset l)
                               (length_width l)
                               (N.to_nat (py_len (MemView d))) (MemView d) next)
                    = []).
    { apply framed_stop; try assumption. subst next. lia. }
    assert (Hstop : stopped (framed (header_size l) (length_offset l)
                               (length_width l)
                               (N.to_nat (py_len (MemView d))) (MemView d) next)
                    = Exhausted).
    { apply framed_stopped; try assumption. subst next. cbn [py_len]. lia. }
    unfold gen_cons. rewrite Hnone, Hstop.
    unfold record_at, payload_at.
    rewrite (slice_to_end d (off + header_size l)) by lia.
    reflexivity.
Qed.

(** On [truncated_l2] the record at offset 0 declares 5 bytes, 2 remain, and
    the decoder yields it with those 2 bytes. *)
Lemma truncated_record_is_yielded_short_witness :
  0 + header_size Layer2 <= N.of_nat (length truncated_l2) /\
  N.of_nat (length truncated_l2) <
    0 + header_size Layer2 + layer_declared Layer2 truncated_l2 0 /\
  decode_from Layer2 truncated_l2 0 =
    Gen [(header_at (header_size Layer2) truncated_l2 0,
          MemView (slice truncated_l2 (0 + header_size Layer2)
                     (N.of_nat (length truncated_l2))))]
        Exhausted.
Proof.
  split; [ vm_compute; discriminate | ].
  split; [ vm_compute; reflexivity | ].
  apply (proj2 (proj2 (truncated_record_is_yielded_short Layer2 truncated_l2))).
  - vm_compute. discriminate.
  - vm_compute. reflexivity.
Defined.

(* ================================================================== *)
(** * Termination of the decoders                                       *)
(* ================================================================== *)

Lemma layer_body_advances (l : framed_layer) (x : pyobj) :
  forall off r adv, layer_body l x off = Yield r adv -> header_size l <= adv.
Proof.
  rewrite layer_body_framed. apply framed_body_advances.
Qed.

Lemma decode_fuel_unfold (l : framed_layer) (fuel : nat) (x : pyobj) (off : N) :
  decode_fuel l fuel x off =
  while_yield (header_size l) (py_len x) (layer_body l x) fuel off.
Proof. destruct l; reflexivity. Qed.

Lemma parse_layer1_body_advances (gz : decompressor) (x : pyobj) :
  forall off r adv, parse_layer1_body gz x off = Yield r adv -> 35 <= adv.
Proof.
  intros off r adv H. exfalso.
  exact (parse_layer1_body_never_yields gz x off r adv H).
Qed.

(** C9.  Every layer decoder terminates on every input: a pass of the loop
    that yields a record moves the offset forward by at least the header
    size (35, 16, 8 or 4), so the number of records is bounded by the length
    of the span, the loop stops (exhausted or with an exception) without
    using up [enough_fuel], and more fuel changes nothing. *)
Theorem layer_decoders_terminate :
  forall (gz : decompressor) (x : pyobj) (fuel : nat),
    (enough_fuel x <= fuel)%nat ->
    (parse_layer1_fuel gz fuel x 0 = parse_layer1 gz x /\
     stopped (parse_layer1 gz x) <> Diverged /\
     N.of_nat (length (yielded (parse_layer1 gz x))) * 35 <= py_len x /\
     (forall off r adv,
        parse_layer1_body gz x off = Yield r adv -> 35 <= adv)) /\
    (forall l : framed_layer,
       decode_fuel l fuel x 0 = decode l x /\
       stopped (decode l x) <> Diverged /\
       N.of_nat (length (yielded (decode l x))) * header_size l <= py_len x /\
       (forall off r adv,
          layer_body l x off = Yield r adv -> header_size l <= adv)).
Proof.
  intros gz x fuel Hfuel.
  split.
  - unfold parse_layer1, parse_layer1_fuel.
    split; [ | split; [ | split ] ].
    + apply while_yield_more_fuel;
        [ reflexivity | apply parse_layer1_body_advances
        | apply enough_fuel_spec | exact Hfuel ].
    + apply while_yield_not_diverged;
        [ reflexivity | apply parse_layer1_body_advances
        | apply enough_fuel_spec ].
    + pose proof (while_yield_count 35 (py_len x) (parse_layer1_body gz x)
                    eq_refl (parse_layer1_body_advances gz x)
                    (enough_fuel x) 0).
      lia.
    + apply parse_layer1_body_advances.
  - intros l. rewrite decode_eq, !decode_fuel_unfold.
    split; [ | split; [ | split ] ].
    + apply while_yield_more_fuel;
        [ apply header_size_pos | apply layer_body_advances
        | apply enough_fuel_spec | exact Hfuel ].
    + apply while_yield_not_diverged;
        [ apply header_size_pos | apply layer_body_advances
        | apply enough_fuel_spec ].
    + pose proof (while_yield_count (header_size l) (py_len x) (layer_body l x)
                    (header_size_pos l) (layer_body_advances l x)
                    (enough_fuel x) 0).
      lia.
    + apply layer_body_advances.
Qed.

(** The sample file and the sample L2 span with a thousand units of fuel. *)
Lemma layer_decoders_terminate_witness :
  (enough_fuel (MemView sample_l2) <= 1000)%nat /\
  parse_layer1_fuel sample_gunzip 1000 (MemView sample_l2) 0 =
    parse_layer1 sample_gunzip (MemView sample_l2) /\
  decode_fuel Layer2 1000 (MemView sample_l2) 0 =
    decode Layer2 (MemView sample_l2) /\
  stopped (decode Layer2 (MemView sample_l2)) <> Diverged.
Proof.
  assert (Hfuel : (enough_fuel (MemView sample_l2) <= 1000)%nat)
    by (vm_compute; lia).
  split; [ exact Hfuel | ].
  pose proof (layer_decoders_terminate sample_gunzip (MemView sample_l2)
                1000%nat Hfuel) as [H1 H2].
  split; [ exact (proj1 H1) | ].
  split; [ exact (proj1 (H2 Layer2)) | exact (proj1 (proj2 (H2 Layer2))) ].
Defined.

(* ================================================================== *)
(** * The file processor                                                *)
(* ================================================================== *)

Lemma extract_frames_cases (gz : decompressor) (mm : pyobj) :
  extract_frames gz mm = Gen [] Exhausted \/
  extract_frames gz mm = Gen [] (Raised AttributeError).
Proof.
  rewrite extract_frames_eq.
  destruct (N.lt_ge_cases (py_len mm) 35) as [Hlt | Hge].
  - left. rewrite parse_layer1_short by exact Hlt. reflexivity.
  - right. rewrite parse_layer1_raises by exact Hge. reflexivity.
Qed.

(** Case analysis along the calls of [process_file], in program order. *)
Ltac step_io :=
  match goal with
  | |- context [extract_frames ?g ?m] =>
      destruct (extract_frames_cases g m) as [-> | ->]
  | |- context [match ?x with _ => _ end] =>
      lazymatch x with
      | context [match _ with _ => _ end] => fail
      | _ => destruct x eqn:?
      end
  end.

Ltac run_io :=
  unfold process_file, mmap_file, with_open, mmap_mmap, io_bind, try_finally,
    lift, emit, io_ret, io_raise;
  repeat (cbn; step_io); cbn.

Lemma process_file_never_hangs {row} (self : FileParser row) (h : host row)
    (p : path) :
  fst (process_file self h p []) <> Hung.
Proof.
  run_io; discriminate.
Qed.

Lemma mmap_file_empty {row} (h : host row) (p : path) :
  fs_read h p = Some [] ->
  mmap_file h p [] = (Failed ValueError, [EvFileOpen p; EvFileClose p]).
Proof.
  intros Hfs. unfold mmap_file, with_open. rewrite Hfs. reflexivity.
Qed.

Lemma mmap_file_nonempty {row} (h : host row) (p : path) (content : list byte) :
  fs_read h p = Some content -> content <> [] ->
  mmap_file h p [] =
  (Returned (Mapping p content), [EvFileOpen p; EvMmap p; EvFileClose p]).
Proof.
  intros Hfs Hne. unfold mmap_file, with_open. rewrite Hfs.
  destruct content as [|b bs]; [ contradiction | reflexivity ].
Qed.

(** C5.  The mapping and its descriptor should be released exactly once on
    every exit path of the file processor.  On the sample file frame
    extraction raises, and [process_file] is left with the mapping acquired
    and neither [mm_view.release()] nor [mm.close()] run.  In general the
    file object opened for mapping is closed as often as it is opened (the
    [with] block), the mapping is acquired whenever the file is non-empty,
    and the two release calls run once when [process_file] returns and not
    at all when it raises. *)
Theorem mapping_not_released_on_failure :
  process_file sample_parser sample_host "in/a.bin" [] =
    (Failed AttributeError,
     [EvFileOpen "in/a.bin"; EvMmap "in/a.bin"; EvFileClose "in/a.bin"]) /\
  (forall row (self : FileParser row) (h : host row) (p : path),
     let run := process_file self h p [] in
     count_events is_file_close (snd run) =
       count_events is_file_open (snd run) /\
     count_events is_mmap (snd run) =
       match fs_read h p with Some (_ :: _) => 1%nat | _ => 0%nat end /\
     count_events is_view_release (snd run) =
       match fst run with Returned _ => 1%nat | _ => 0%nat end /\
     count_events is_mmap_close (snd run) =
       match fst run with Returned _ => 1%nat | _ => 0%nat end).
Proof.
  split; [ vm_compute; reflexivity | ].
  intros row self h p.
  run_io; repeat split; reflexivity.
Qed.

(** C6, as stated: opening a zero-length file should give an empty buffer.
    [mmap_file] on the empty sample file raises [ValueError]. *)
Lemma empty_file_is_not_mapped :
  fs_read sample_host "in/empty.bin" = Some [] /\
  mmap_file sample_host "in/empty.bin" [] =
    (Failed ValueError,
     [EvFileOpen "in/empty.bin"; EvFileClose "in/empty.bin"]) /\
  ~ (exists mm log,
       mmap_file sample_host "in/empty.bin" [] = (Returned mm, log) /\
       mm_bytes mm = []).
Proof.
  split; [ reflexivity | ].
  split; [ reflexivity | ].
  intros (mm & log & Hrun & _). vm_compute in Hrun. discriminate.
Qed.

(** C6, amended.  Opening a zero-length file raises [ValueError], the file
    object being closed on the way out; opening a non-empty file returns a
    mapping over exactly the file's bytes. *)
Theorem mmap_file_outcome :
  forall row (h : host row) (p : path) (content : list byte),
    fs_read h p = Some content ->
    (content = [] ->
     mmap_file h p [] = (Failed ValueError, [EvFileOpen p; EvFileClose p])) /\
    (content <> [] ->
     mmap_file h p [] =
     (Returned (Mapping p content),
      [EvFileOpen p; EvMmap p; EvFileClose p])).
Proof.
  intros row h p content Hfs. split.
  - intros ->. apply mmap_file_empty. exact Hfs.
  - intros Hne. apply mmap_file_nonempty; assumption.
Qed.

(** The three-byte sample file is mapped as it is. *)
Lemma mmap_file_outcome_witness :
  fs_read sample_host "in/short.bin" = Some [x00; x01; x02] /\
  mmap_file sample_host "in/short.bin" [] =
    (Returned (Mapping "in/short.bin" [x00; x01; x02]),
     [EvFileOpen "in/short.bin"; EvMmap "in/short.bin";
      EvFileClose "in/short.bin"]).
Proof.
  split; [ reflexivity | ].
  apply (proj2 (mmap_file_outcome N sample_host "in/short.bin"
                  [x00; x01; x02] eq_refl)).
  discriminate.
Defined.

(** C10, as stated: a file without frames, an empty one for example, should
    be processed successfully into an output with zero rows.  Extraction
    over the bytes of the empty sample file yields nothing and ends
    normally, yet [process_file] raises [ValueError] for it. *)
Lemma empty_file_is_not_processed :
  extract_frames (gzip_decompress sample_host) (MemView []) = Gen [] Exhausted /\
  process_file sample_parser sample_host "in/empty.bin" [] =
    (Failed ValueError,
     [EvFileOpen "in/empty.bin"; EvFileClose "in/empty.bin"]) /\
  ~ zero_frames_succeed sample_parser sample_host "in/empty.bin".
Proof.
  split; [ reflexivity | ].
  split; [ vm_compute; reflexivity | ].
  intros Hclaim.
  destruct (Hclaim [] eq_refl eq_refl) as (out_file & log & Hrun & _).
  vm_compute in Hrun. discriminate.
Qed.

(** C10, amended.  For a non-empty file from which extraction yields no
    frame, and a host on which the output directory can be made and the
    writer takes the empty collection, [process_file] returns the computed
    output path, having written zero rows there and released the mapping. *)
Theorem zero_frames_file_is_written :
  forall row (self : FileParser row) (h : host row) (p : path)
         (content : list byte) (rel out_file : path),
    fs_read h p = Some content ->
    content <> [] ->
    extract_frames (gzip_decompress h) (MemView content) = Gen [] Exhausted ->
    relative_to h p (input_dir self) = inr rel ->
    mkdir_parents h (parent h (joinpath h (output_dir self) rel)) = inr tt ->
    with_suffix h (joinpath h (output_dir self) rel) ".parquet" = inr out_file ->
    write_parquet h [] out_file = inr tt ->
    process_file self h p [] =
    (Returned out_file,
     [EvFileOpen p; EvMmap p; EvFileClose p;
      EvMkdir (parent h (joinpath h (output_dir self) rel));
      EvPrint (MsgInputFile p);
      EvPrint (MsgOutputFile (joinpath h (output_dir self) rel));
      EvWriteParquet out_file [];
      EvViewRelease p; EvMmapClose p]).
Proof.
  intros row self h p content rel out_file Hfs Hne Hframes Hrel Hmk Hsuf Hwr.
  unfold process_file, io_bind.
  rewrite (mmap_file_nonempty h p content Hfs Hne).
  cbn [mm_bytes mm_path]. rewrite Hframes. cbn [yielded stopped collect_rows].
  unfold io_ret, lift. rewrite Hrel. unfold io_ret.
  rewrite Hmk. unfold io_ret, emit. cbn [app].
  rewrite Hsuf. unfold io_ret. rewrite Hwr. reflexivity.
Qed.

(** The three-byte sample file holds no frame and is written out as an
    empty table. *)
Lemma zero_frames_file_is_written_witness :
  fs_read sample_host "in/short.bin" = Some [x00; x01; x02] /\
  process_file sample_parser sample_host "in/short.bin" [] =
    (Returned "out/short.parquet"%string,
     [EvFileOpen "in/short.bin"; EvMmap "in/short.bin";
      EvFileClose "in/short.bin"; EvMkdir "out";
      EvPrint (MsgInputFile "in/short.bin");
      EvPrint (MsgOutputFile "out/short.bin");
      EvWriteParquet "out/short.parquet" [];
      EvViewRelease "in/short.bin"; EvMmapClose "in/short.bin"]).
Proof.
  split; [ reflexivity | ].
  apply (zero_frames_file_is_written N sample_parser sample_host
           "in/short.bin" [x00; x01; x02] "short.bin" "out/short.parquet");
    try reflexivity.
  discriminate.
Defined.

(* ================================================================== *)
(** * The directory run                                                 *)
(* ================================================================== *)

Lemma count_events_app {row} (p : event row -> bool) (l1 l2 : list (event row)) :
  count_events p (l1 ++ l2) = (count_events p l1 + count_events p l2)%nat.
Proof.
  unfold count_events. rewrite filter_app, length_app. reflexivity.
Qed.

Lemma worker_never_hangs {row} (self : FileParser row) (h : host row)
    (f : path) :
  worker_outcome self h f <> Hung.
Proof.
  apply process_file_never_hangs.
Qed.

Lemma drain_log {row} (self : FileParser row) (h : host row) :
  forall completed log,
    drain self h completed log =
    (Returned tt, log ++ flat_map (file_events self h) completed).
Proof.
  induction completed as [|f rest IH]; intros log.
  - cbn. rewrite app_nil_r. reflexivity.
  - cbn [drain flat_map]. unfold io_bind at 1.
    unfold try_except, io_bind, future_result, file_events.
    fold (worker_outcome self h f).
    pose proof (worker_never_hangs self h f) as Hlive.
    destruct (worker_outcome self h f) as [out_file | e | ];
      [ | | contradiction ]; cbn; rewrite IH, <- !app_assoc; reflexivity.
Qed.

Lemma process_directory_log {row} (self : FileParser row) (h : host row)
    (files completed : list path) :
  process_directory self h files completed [] =
  (Returned tt,
   match files with [] => [EvPrint MsgNoFiles] | _ :: _ => [] end
   ++ [EvPbarOpen (length files)]
   ++ flat_map (file_events self h) completed
   ++ [EvPbarClose]).
Proof.
  unfold process_directory, io_bind, try_finally.
  destruct files as [|f0 files]; cbn; rewrite drain_log; reflexivity.
Qed.

Lemma file_events_report {row} (self : FileParser row) (h : host row)
    (f : path) :
  exists e, In e (file_events self h f) /\ reports self h f e.
Proof.
  unfold file_events, reports.
  pose proof (worker_never_hangs self h f) as Hlive.
  destruct (worker_outcome self h f) as [out_file | e | ];
    [ | | contradiction ].
  - exists (EvPrint (MsgDone f out_file)). split; [ cbn; auto | reflexivity ].
  - exists (EvPrint (MsgFailed f e)). split; [ cbn; auto | reflexivity ].
Qed.

Lemma file_events_one_report {row} (self : FileParser row) (h : host row)
    (f : path) :
  count_events is_report (file_events self h f) = 1%nat.
Proof.
  unfold file_events.
  pose proof (worker_never_hangs self h f) as Hlive.
  destruct (worker_outcome self h f); [ | | contradiction ]; reflexivity.
Qed.

Lemma file_events_updates {row} (self : FileParser row) (h : host row)
    (f : path) :
  count_events is_pbar_update (file_events self h f) =
  if succeeded self h f then 1%nat else 0%nat.
Proof.
  unfold file_events, succeeded.
  destruct (worker_outcome self h f); reflexivity.
Qed.

Lemma count_reports_flat_map {row} (self : FileParser row) (h : host row)
    (completed : list path) :
  count_events is_report (flat_map (file_events self h) completed) =
  length completed.
Proof.
  induction completed as [|f rest IH]; [ reflexivity | ].
  cbn [flat_map length]. rewrite count_events_app, file_events_one_report, IH.
  reflexivity.
Qed.

Lemma count_updates_flat_map {row} (self : FileParser row) (h : host row)
    (completed : list path) :
  count_events is_pbar_update (flat_map (file_events self h) completed) =
  length (filter (succeeded self h) completed).
Proof.
  induction completed as [|f rest IH]; [ reflexivity | ].
  cbn [flat_map filter]. rewrite count_events_app, file_events_updates, IH.
  destruct (succeeded self h f); reflexivity.
Qed.

(** C7.  Whatever the order in which the submitted files complete, the
    directory run returns normally; every submitted file gets the line for
    its own outcome (done with its output path, or failed with its error);
    and there is exactly one such line per file.  A failure of one file
    therefore neither aborts the run nor changes what is reported for the
    others. *)
Theorem directory_run_isolates_failures :
  forall row (self : FileParser row) (h : host row)
         (files completed : list path),
    Permutation files completed ->
    let run := process_directory self h files completed [] in
    fst run = Returned tt /\
    (forall f, In f files ->
       exists e, In e (snd run) /\ reports self h f e) /\
    count_events is_report (snd run) = length files.
Proof.
  intros row self h files completed Hperm run. subst run.
  rewrite process_directory_log. cbn [fst snd].
  split; [ reflexivity | split ].
  - intros f Hin.
    destruct (file_events_report self h f) as (e & He & Hrep).
    exists e. split; [ | exact Hrep ].
    apply in_or_app. right. apply in_or_app. right.
    apply in_or_app. left.
    apply in_flat_map. exists f. split; [ | exact He ].
    eapply Permutation_in; eassumption.
  - rewrite !count_events_app, count_reports_flat_map.
    rewrite <- (Permutation_length Hperm).
    destruct files; cbn; lia.
Qed.

(** Two files, the failing one submitted first and completing last. *)
Lemma directory_run_isolates_failures_witness :
  Permutation ["in/a.bin"; "in/short.bin"]%string
              ["in/short.bin"; "in/a.bin"]%string /\
  worker_outcome sample_parser sample_host "in/a.bin" = Failed AttributeError /\
  worker_outcome sample_parser sample_host "in/short.bin" =
    Returned "out/short.parquet"%string /\
  let run :=
    process_directory sample_parser sample_host
      ["in/a.bin"; "in/short.bin"]%string ["in/short.bin"; "in/a.bin"]%string []
  in
  fst run = Returned tt /\
  (forall f, In f ["in/a.bin"; "in/short.bin"]%string ->
     exists e, In e (snd run) /\ reports sample_parser sample_host f e) /\
  count_events is_report (snd run) = 2%nat.
Proof.
  split; [ apply perm_swap | ].
  split; [ vm_compute; reflexivity | ].
  split; [ vm_compute; reflexivity | ].
  apply (directory_run_isolates_failures N sample_parser sample_host
           ["in/a.bin"; "in/short.bin"]%string
           ["in/short.bin"; "in/a.bin"]%string).
  apply perm_swap.
Defined.

(** C8.  The progress bar should advance once per completed file whatever
    the outcome.  [pbar.update(1)] sits after [future.result()] inside the
    [try], so a failed file does not advance it: with the sample file as the
    only input the run reports the failure and closes the bar without any
    update.  In general the bar advances once per file that succeeded. *)
Theorem progress_skips_failed_files :
  process_directory sample_parser sample_host ["in/a.bin"%string]
    ["in/a.bin"%string] [] =
    (Returned tt,
     [EvPbarOpen 1; EvPrint (MsgFailed "in/a.bin" AttributeError); EvPbarClose])
  /\
  (forall row (self : FileParser row) (h : host row)
          (files completed : list path),
     count_events is_pbar_update
       (snd (process_directory self h files completed [])) =
     length (filter (succeeded self h) completed)).
Proof.
  split; [ vm_compute; reflexivity | ].
  intros row self h files completed.
  rewrite process_directory_log. cbn [snd].
  rewrite !count_events_app, count_updates_flat_map.
  destruct files; cbn; lia.
Qed.

(* ================================================================== *)
(** * Further properties of the framed decoders                         *)
(* ================================================================== *)

Lemma slice_app_shift {A} (pre rest : list A) (a b : N) :
  slice (pre ++ rest) (N.of_nat (length pre) + a) (N.of_nat (length pre) + b)
  = slice rest a b.
Proof.
  unfold slice. rewrite length_app.
  replace (N.to_nat (N.min (N.of_nat (length pre) + a)
                       (N.of_nat (length pre + length rest))))
    with (length pre + N.to_nat (N.min a (N.of_nat (length rest))))%nat by lia.
  rewrite skipn_app, skipn_all2 by lia. cbn [app].
  f_equal; [ lia | f_equal; lia ].
Qed.

Lemma slice_app_l {A} (l1 l2 : list A) (a b : N) :
  b <= N.of_nat (length l1) ->
  slice (l1 ++ l2) a b = slice l1 a b.
Proof.
  intros Hb. unfold slice. rewrite length_app.
  destruct (N.le_gt_cases a b) as [Hab | Hba].
  - replace (N.min b (N.of_nat (length l1 + length l2))) with b by lia.
    replace (N.min b (N.of_nat (length l1))) with b by lia.
    replace (N.min a (N.of_nat (length l1 + length l2))) with a by lia.
    replace (N.min a (N.of_nat (length l1))) with a by lia.
    rewrite skipn_app, firstn_app, length_skipn.
    replace (N.to_nat (b - a) - (length l1 - N.to_nat a))%nat
      with 0%nat by lia.
    cbn [firstn]. apply app_nil_r.
  - match goal with
    | |- firstn ?n _ = firstn ?m _ =>
        replace n with 0%nat by lia; replace m with 0%nat by lia
    end.
    reflexivity.
Qed.

Lemma slice_all {A} (l : list A) :
  slice l 0 (N.of_nat (length l)) = l.
Proof.
  unfold slice. rewrite N.min_id.
  replace (N.min 0 _) with 0 by lia.
  rewrite N.sub_0_r, Nat2N.id. cbn [N.to_nat skipn]. apply firstn_all.
Qed.

Lemma slice_skipn {A} (l : list A) (a b : N) :
  a <= b -> b <= N.of_nat (length l) ->
  skipn (N.to_nat a) l = slice l a b ++ skipn (N.to_nat b) l.
Proof.
  intros Hab Hb. unfold slice.
  replace (N.min b (N.of_nat (length l))) with b by lia.
  replace (N.min a (N.of_nat (length l))) with a by lia.
  rewrite <- (firstn_skipn (N.to_nat (b - a)) (skipn (N.to_nat a) l)) at 1.
  rewrite skipn_skipn. do 2 f_equal. lia.
Qed.

Lemma be_uint_bound (bs : list byte) :
  be_uint bs < 256 ^ N.of_nat (length bs).
Proof.
  unfold be_uint.
  assert (H : forall bs acc,
            fold_left (fun acc b => acc * 256 + Byte.to_N b) bs acc
            < (acc + 1) * 256 ^ N.of_nat (length bs)).
  { clear bs. induction bs as [|b bs IH]; intros acc.
    - cbn. lia.
    - cbn [fold_left length]. rewrite Nat2N.inj_succ, N.pow_succ_r'.
      specialize (IH (acc * 256 + Byte.to_N b)).
      pose proof (Byte.to_N_bounded b).
      eapply N.lt_le_trans; [ exact IH | ].
      rewrite N.mul_assoc. apply N.mul_le_mono_r. lia. }
  specialize (H bs 0). lia.
Qed.

Section FramedSpans.

Variables (hs lo : N) (w : nat).
Hypothesis hs_pos : 0 < hs.
Hypothesis field_in_header : lo + N.of_nat w <= hs.

Lemma record_at_shift (pre rest : list byte) (off : N) :
  record_at hs lo w (pre ++ rest) (N.of_nat (length pre) + off) =
  record_at hs lo w rest off.
Proof.
  unfold record_at, header_at, payload_at, declared_at.
  rewrite <- !N.add_assoc, !slice_app_shift. reflexivity.
Qed.

Lemma declared_at_shift (pre rest : list byte) (off : N) :
  declared_at lo w (pre ++ rest) (N.of_nat (length pre) + off) =
  declared_at lo w rest off.
Proof.
  unfold declared_at. rewrite <- !N.add_assoc, !slice_app_shift. reflexivity.
Qed.

(** Decoding is insensitive to what precedes the offset it starts from. *)
Lemma framed_shift (pre rest : list byte) (fuel : nat) :
  forall off,
    framed hs lo w fuel (MemView (pre ++ rest)) (N.of_nat (length pre) + off) =
    framed hs lo w fuel (MemView rest) off.
Proof.
  induction fuel as [|fuel IH]; intros off; [ reflexivity | ].
  destruct (N.le_gt_cases (off + hs) (N.of_nat (length rest))) as [Hfit | Hgt].
  - rewrite !framed_unfold by (try rewrite length_app; try assumption; lia).
    rewrite record_at_shift, declared_at_shift.
    rewrite <- N.add_assoc, IH. reflexivity.
  - unfold framed. cbn [while_yield py_len]. rewrite length_app.
    replace (N.of_nat (length pre) + off + hs <=? _) with false
      by (symmetry; apply N.leb_gt; lia).
    replace (off + hs <=? _) with false by (symmetry; apply N.leb_gt; lia).
    reflexivity.
Qed.

Lemma framed_short (d : list byte) :
  N.of_nat (length d) < hs ->
  framed hs lo w (enough_fuel (MemView d)) (MemView d) 0 = Gen [] Exhausted.
Proof.
  intros Hlt. unfold framed, enough_fuel. cbn [while_yield py_len].
  replace (0 + hs <=? _) with false by (symmetry; apply N.leb_gt; lia).
  reflexivity.
Qed.

Lemma framed_cons_record (h p rest : list byte) :
  N.of_nat (length h) = hs ->
  be_uint (slice h lo (lo + N.of_nat w)) = N.of_nat (length p) ->
  framed hs lo w (enough_fuel (MemView (h ++ p ++ rest)))
    (MemView (h ++ p ++ rest)) 0 =
  gen_cons (MemView h, MemView p)
    (framed hs lo w (enough_fuel (MemView rest)) (MemView rest) 0).
Proof.
  intros Hh Hp.
  assert (Hlen : N.of_nat (length (h ++ p ++ rest)) =
                 hs + N.of_nat (length p) + N.of_nat (length rest))
    by (rewrite !length_app; lia).
  unfold enough_fuel at 1.
  rewrite framed_unfold by (try assumption; lia).
  assert (Hdecl : declared_at lo w (h ++ p ++ rest) 0 = N.of_nat (length p)).
  { unfold declared_at. rewrite !N.add_0_l.
    rewrite slice_app_l by lia. exact Hp. }
  assert (Hrec : record_at hs lo w (h ++ p ++ rest) 0 = (MemView h, MemView p)).
  { unfold record_at, header_at, payload_at. rewrite Hdecl, !N.add_0_l.
    f_equal; f_equal.
    - rewrite <- Hh. rewrite slice_app_l by lia. apply slice_all.
    - rewrite <- Hh.
      rewrite <- (N.add_0_r (N.of_nat (length h))) at 1.
      rewrite slice_app_shift, slice_app_l by lia. apply slice_all. }
  rewrite Hrec, Hdecl. f_equal.
  rewrite app_assoc.
  replace (0 + (hs + N.of_nat (length p)))
    with (N.of_nat (length (h ++ p)) + 0) by (rewrite length_app; lia).
  rewrite framed_shift.
  apply framed_more_fuel; try assumption.
  - cbn [py_len]. rewrite <- app_assoc, Hlen. lia.
  - apply (enough_fuel_spec (MemView rest)).
Qed.

(** The yielded records, laid end to end, rebuild the span from the offset
    the loop started at, up to a leftover shorter than one header. *)
Lemma framed_covers (d : list byte) (fuel : nat) :
  forall off,
    N.of_nat (length d) - off < N.of_nat fuel ->
    off <= N.of_nat (length d) ->
    exists tail,
      skipn (N.to_nat off) d =
      concat (map record_bytes
                (yielded (framed hs lo w fuel (MemView d) off))) ++ tail /\
      N.of_nat (length tail) < hs.
Proof.
  induction fuel as [|fuel IH]; intros off Hfuel Hoff; [ lia | ].
  destruct (N.le_gt_cases (off + hs) (N.of_nat (length d))) as [Hfit | Hgt].
  - rewrite framed_unfold by assumption.
    cbn [gen_cons yielded map concat].
    set (n := declared_at lo w d off).
    unfold record_at, header_at, payload_at. cbn [record_bytes]. fold n.
    rewrite (slice_skipn d off (off + hs)) by lia.
    destruct (N.le_gt_cases (off + (hs + n)) (N.of_nat (length d)))
      as [Hin | Hout].
    + destruct (IH (off + (hs + n))) as (tail & Heq & Htail); [ lia | lia | ].
      exists tail. split; [ | exact Htail ].
      rewrite (slice_skipn d (off + hs) (off + hs + n)) by lia.
      replace (N.to_nat (off + (hs + n))) with (N.to_nat (off + hs + n))
        in Heq by lia.
      rewrite Heq, <- !app_assoc. reflexivity.
    + exists []. split; [ | cbn; lia ].
      rewrite framed_stop by (try assumption; lia).
      cbn [map concat]. rewrite !app_nil_r.
      rewrite (slice_skipn d (off + hs) (N.of_nat (length d))) by lia.
      rewrite Nat2N.id, skipn_all, app_nil_r.
      f_equal. symmetry. apply slice_to_end. lia.
  - exists (skipn (N.to_nat off) d). split.
    + rewrite framed_stop by assumption. reflexivity.
    + rewrite length_skipn. lia.
Qed.

End FramedSpans.

Lemma gen_prepend_nil {A} (g : gen A) : gen_prepend [] g = g.
Proof. destruct g; reflexivity. Qed.

Lemma gen_cons_prepend {A} (a : A) (xs : list A) (g : gen A) :
  gen_cons a (gen_prepend xs g) = gen_prepend (a :: xs) g.
Proof. reflexivity. Qed.

Lemma decode_short (l : framed_layer) (d : list byte) :
  N.of_nat (length d) < header_size l ->
  decode l (MemView d) = Gen [] Exhausted.
Proof.
  intros Hlt. rewrite decode_eq, decode_fuel_framed.
  apply framed_short;
    [ apply header_size_pos | apply length_field_in_header | exact Hlt ].
Qed.

Lemma decode_prepend (l : framed_layer) (rs : list (list byte * list byte))
    (rest : list byte) :
  Forall (well_formed l) rs ->
  decode l (MemView (encode_records rs ++ rest)) =
  gen_prepend (map as_record rs) (decode l (MemView rest)).
Proof.
  induction 1 as [|[h p] rs [Hh Hp] _ IH].
  - cbn. symmetry. apply gen_prepend_nil.
  - unfold encode_records in *. cbn [map concat fst snd] in *.
    rewrite <- !app_assoc.
    rewrite decode_eq, decode_fuel_framed.
    rewrite framed_cons_record;
      try assumption;
      [ | apply header_size_pos | apply length_field_in_header ].
    rewrite <- decode_fuel_framed, <- decode_eq, IH.
    reflexivity.
Qed.

(** X1.  Round trip through a framed decoder: a span made of well-formed
    records laid back to back, followed by any further bytes, decodes to
    those records followed by whatever the remaining bytes decode to; when
    fewer bytes than one header remain, the decoder yields exactly the
    records and stops without error. *)
Theorem decode_encoded_records :
  forall (l : framed_layer) (rs : list (list byte * list byte))
         (rest : list byte),
    Forall (well_formed l) rs ->
    decode l (MemView (encode_records rs ++ rest)) =
      gen_prepend (map as_record rs) (decode l (MemView rest)) /\
    (N.of_nat (length rest) < header_size l ->
     decode l (MemView (encode_records rs ++ rest)) =
       Gen (map as_record rs) Exhausted).
Proof.
  intros l rs rest Hwf. split.
  - apply decode_prepend. exact Hwf.
  - intros Hshort. rewrite decode_prepend by exact Hwf.
    rewrite decode_short by exact Hshort.
    unfold gen_prepend. cbn [yielded stopped]. rewrite app_nil_r. reflexivity.
Qed.

(** Two L4 records followed by two stray bytes. *)
Lemma decode_encoded_records_witness :
  Forall (well_formed Layer4)
    [([x00; x00; x00; x04], sample_frame); ([x00; x00; x00; x01], [xff])] /\
  decode Layer4
    (MemView
       (encode_records
          [([x00; x00; x00; x04], sample_frame); ([x00; x00; x00; x01], [xff])]
        ++ [x00; x01])) =
  Gen (map as_record
         [([x00; x00; x00; x04], sample_frame); ([x00; x00; x00; x01], [xff])])
      Exhausted.
Proof.
  assert (Hwf : Forall (well_formed Layer4)
                  [([x00; x00; x00; x04], sample_frame);
                   ([x00; x00; x00; x01], [xff])]).
  { repeat constructor. }
  split; [ exact Hwf | ].
  apply (proj2 (decode_encoded_records Layer4 _ [x00; x01] Hwf)).
  vm_compute. reflexivity.
Defined.

(** X2.  Nothing is skipped and nothing is read twice: the headers and
    payloads a framed decoder yields, laid end to end in order, are a prefix
    of the span, and what is left after them is shorter than one header. *)
Theorem decoded_records_cover_the_span :
  forall (l : framed_layer) (d : list byte),
    exists tail,
      d = concat (map record_bytes (yielded (decode l (MemView d)))) ++ tail /\
      N.of_nat (length tail) < header_size l.
Proof.
  intros l d. rewrite decode_eq, decode_fuel_framed.
  destruct (framed_covers (header_size l) (length_offset l) (length_width l)
              (header_size_pos l) (length_field_in_header l)
              d (enough_fuel (MemView d)) 0)
    as (tail & Heq & Htail).
  - apply (enough_fuel_spec (MemView d)).
  - lia.
  - exists tail. split; [ exact Heq | exact Htail ].
Qed.

(** X3.  Every record a framed decoder yields has a header of exactly the
    layer's size and a payload shorter than 256 to the width of the length
    field (65536 bytes for L2 and L4, 2^32 for L3), and both lie within the
    span. *)
Theorem yielded_record_sizes :
  forall (l : framed_layer) (d : list byte) (r : pyobj * pyobj),
    In r (yielded (decode l (MemView d))) ->
    exists h p,
      r = (MemView h, MemView p) /\
      N.of_nat (length h) = header_size l /\
      N.of_nat (length p) < 256 ^ N.of_nat (length_width l) /\
      N.of_nat (length h) + N.of_nat (length p) <= N.of_nat (length d).
Proof.
  intros l d r Hin.
  destruct (in_split _ _ Hin) as (pre & post & Hy).
  rewrite decode_eq, decode_fuel_framed in Hy.
  pose proof (header_size_pos l) as Hpos.
  pose proof (length_field_in_header l) as Hfield.
  destruct (framed_yields_inv _ _ _ d Hpos Hfield _ 0 pre r post
              (enough_fuel_spec (MemView d) 0) Hy)
    as (off & _ & Hfit & Hr & _ & _).
  set (hs := header_size l) in *. set (lo := length_offset l) in *.
  set (w := length_width l) in *.
  exists (slice d off (off + hs)),
         (slice d (off + hs) (off + hs + declared_at lo w d off)).
  split; [ exact Hr | ].
  pose proof (slice_header_length d off hs Hfit) as Hh.
  pose proof (payload_at_length hs lo w d Hpos Hfield off) as Hp.
  unfold payload_at in Hp. cbn [py_len] in Hp.
  pose proof (be_uint_bound (slice d (off + lo) (off + lo + N.of_nat w)))
    as Hbound.
  rewrite slice_length in Hbound.
  replace (N.min (off + lo + N.of_nat w) (N.of_nat (length d)) -
           N.min (off + lo) (N.of_nat (length d)))
    with (N.of_nat w) in Hbound by lia.
  fold (declared_at lo w d off) in Hbound.
  split; [ exact Hh | ].
  split; [ rewrite Hp; lia | rewrite Hh, Hp; lia ].
Qed.

Lemma yielded_record_sizes_witness :
  In (layer_record Layer2 sample_l2 0) (yielded (decode Layer2 (MemView sample_l2)))
  /\
  exists h p,
    layer_record Layer2 sample_l2 0 = (MemView h, MemView p) /\
    N.of_nat (length h) = header_size Layer2 /\
    N.of_nat (length p) < 256 ^ N.of_nat (length_width Layer2) /\
    N.of_nat (length h) + N.of_nat (length p) <= N.of_nat (length sample_l2).
Proof.
  assert (Hin : In (layer_record Layer2 sample_l2 0)
                   (yielded (decode Layer2 (MemView sample_l2))))
    by (vm_compute; left; reflexivity).
  split; [ exact Hin | ].
  exact (yielded_record_sizes Layer2 sample_l2 _ Hin).
Defined.

(** X4.  A framed decoder handed a tuple instead of a buffer never yields:
    with fewer items than the header size the loop is not entered, and
    otherwise [struct.unpack] rejects the tuple slice with [TypeError] in
    the first pass. *)
Theorem framed_decoders_reject_tuples :
  forall (l : framed_layer) (items : list pyobj),
    decode l (Tuple items) =
    Gen [] (if header_size l <=? N.of_nat (length items)
            then Raised TypeError else Exhausted).
Proof.
  intros l items.
  rewrite decode_eq, decode_fuel_unfold. unfold enough_fuel.
  cbn [while_yield py_len]. rewrite N.add_0_l.
  destruct (header_size l <=? N.of_nat (length items)) eqn:Hguard;
    [ | reflexivity ].
  apply N.leb_le in Hguard.
  rewrite layer_body_framed. unfold framed_body.
  rewrite py_len_slice by (cbn [py_len]; lia).
  rewrite N.ltb_irrefl. reflexivity.
Qed.

(** X5.  What [parse_layer1] and [extract_frames] do depends on the length
    of the buffer alone: below 35 bytes they end at once without yielding,
    from 35 bytes on they raise [AttributeError] without yielding, whatever
    the bytes are and without consulting the decompressor. *)
Theorem extract_frames_outcome :
  forall (gz : decompressor) (mm : pyobj),
    parse_layer1 gz mm =
      Gen [] (if 35 <=? py_len mm then Raised AttributeError else Exhausted) /\
    extract_frames gz mm =
      Gen [] (if 35 <=? py_len mm then Raised AttributeError else Exhausted).
Proof.
  intros gz mm.
  assert (H1 : parse_layer1 gz mm =
               Gen [] (if 35 <=? py_len mm
                       then Raised AttributeError else Exhausted)).
  { destruct (35 <=? py_len mm) eqn:Hguard.
    - apply parse_layer1_raises. apply N.leb_le. exact Hguard.
    - apply parse_layer1_short. apply N.leb_gt. exact Hguard. }
  split; [ exact H1 | ].
  rewrite extract_frames_eq, H1. reflexivity.
Qed.

(* ================================================================== *)
(** * Further properties of the file processor                          *)
(* ================================================================== *)

(** X6.  The row-collecting loop of [process_file] keeps frame order: when
    the decoder accepts every frame, the rows it returned are appended in
    the order of the frames; an exception ending the generator is raised
    once the frames before it are decoded; and the first frame the decoder
    rejects ends the loop with the decoder's error, whatever follows. *)
Theorem collect_rows_in_frame_order :
  forall row (self : FileParser row) (frames : list (pyobj * pyobj))
         (rowss : list (list row)),
    Forall2 (fun f rows => decode_frame self (fst f) (snd f) = inr rows)
            frames rowss ->
    forall acc log,
      collect_rows self frames Exhausted acc log =
        (Returned (acc ++ concat rowss), log) /\
      (forall e,
         collect_rows self frames (Raised e) acc log = (Failed e, log)) /\
      (forall vid frame e rest tail,
         decode_frame self vid frame = inl e ->
         collect_rows self (frames ++ (vid, frame) :: rest) tail acc log =
           (Failed e, log)).
Proof.
  intros row self frames rowss Hall.
  induction Hall as [|[vid0 frame0] rows frames rowss Hdec _ IH];
    intros acc log.
  - cbn. rewrite app_nil_r. repeat split.
    intros vid frame e rest tail He.
    unfold io_bind, lift. rewrite He. reflexivity.
  - cbn [fst snd] in Hdec.
    cbn [collect_rows app concat]. unfold io_bind, lift.
    rewrite Hdec. unfold io_ret.
    destruct (IH (acc ++ rows) log) as (Hok & Hraise & Hfail).
    rewrite app_assoc. repeat split; assumption.
Qed.

Lemma collect_rows_in_frame_order_witness :
  Forall2 (fun f rows => decode_frame sample_parser (fst f) (snd f) = inr rows)
          sample_frames [[1]; [512]] /\
  collect_rows sample_parser sample_frames Exhausted [] [] =
    (Returned [1; 512], []).
Proof.
  assert (H : Forall2 (fun f rows =>
                         decode_frame sample_parser (fst f) (snd f) = inr rows)
                      sample_frames [[1]; [512]]).
  { repeat constructor. }
  split; [ exact H | ].
  exact (proj1 (collect_rows_in_frame_order N sample_parser _ _ H [] [])).
Defined.

(** X7.  [process_file] returns only for a file of 1 to 34 bytes: the file
    must exist and be non-empty to be mapped, and from 35 bytes on frame
    extraction raises.  When it returns, the result is the output path
    computed from the file's path relative to the input directory, and the
    effects are, in order: the file opened, mapped and closed, the parent
    directory made, the two lines printed, an empty table written at the
    returned path, the view released and the mapping closed. *)
Theorem process_file_returns_only_for_short_files :
  forall row (self : FileParser row) (h : host row) (p out_file : path)
         (log : list (event row)),
    process_file self h p [] = (Returned out_file, log) ->
    exists content rel,
      fs_read h p = Some content /\
      0 < N.of_nat (length content) < 35 /\
      relative_to h p (input_dir self) = inr rel /\
      with_suffix h (joinpath h (output_dir self) rel) ".parquet" =
        inr out_file /\
      log =
      [EvFileOpen p; EvMmap p; EvFileClose p;
       EvMkdir (parent h (joinpath h (output_dir self) rel));
       EvPrint (MsgInputFile p);
       EvPrint (MsgOutputFile (joinpath h (output_dir self) rel));
       EvWriteParquet out_file [];
       EvViewRelease p; EvMmapClose p].
Proof.
  intros row self h p out_file log.
  unfold process_file, mmap_file, with_open, mmap_mmap, io_bind, try_finally,
    lift, emit, io_ret, io_raise.
  destruct (fs_read h p) as [[|b bs]|] eqn:Hfs; cbn;
    try (intros H; discriminate H).
  rewrite extract_frames_eq.
  destruct (N.lt_ge_cases (py_len (MemView (b :: bs))) 35) as [Hlt | Hge].
  - rewrite parse_layer1_short by exact Hlt. cbn.
    destruct (relative_to h p (input_dir self)) as [e | rel] eqn:Hrel; cbn;
      [ intros H; discriminate H | ].
    destruct (mkdir_parents h _) as [e | []]; cbn;
      [ intros H; discriminate H | ].
    destruct (with_suffix h _ _) as [e | out'] eqn:Hsuf; cbn;
      [ intros H; discriminate H | ].
    destruct (write_parquet h [] out') as [e | []]; cbn;
      [ intros H; discriminate H | ].
    intros H. injection H as <- <-.
    exists (b :: bs), rel.
    split; [ reflexivity | ].
    split; [ cbn [py_len] in Hlt; cbn [length] in *; lia | ].
    repeat split. exact Hsuf.
  - rewrite parse_layer1_raises by exact Hge. cbn.
    intros H. discriminate H.
Qed.

Lemma process_file_returns_only_for_short_files_witness :
  process_file sample_parser sample_host "in/short.bin" [] =
    (Returned "out/short.parquet"%string, sample_short_log) /\
  exists content rel,
    fs_read sample_host "in/short.bin" = Some content /\
    0 < N.of_nat (length content) < 35 /\
    relative_to sample_host "in/short.bin" (input_dir sample_parser) = inr rel /\
    with_suffix sample_host
      (joinpath sample_host (output_dir sample_parser) rel) ".parquet" =
      inr "out/short.parquet"%string /\
    sample_short_log =
    [EvFileOpen "in/short.bin"; EvMmap "in/short.bin";
     EvFileClose "in/short.bin";
     EvMkdir (parent sample_host
                (joinpath sample_host (output_dir sample_parser) rel));
     EvPrint (MsgInputFile "in/short.bin");
     EvPrint (MsgOutputFile
                (joinpath sample_host (output_dir sample_parser) rel));
     EvWriteParquet "out/short.parquet" [];
     EvViewRelease "in/short.bin"; EvMmapClose "in/short.bin"].
Proof.
  assert (H : process_file sample_parser sample_host "in/short.bin" [] =
              (Returned "out/short.parquet"%string, sample_short_log))
    by (vm_compute; reflexivity).
  split; [ exact H | ].
  exact (process_file_returns_only_for_short_files N sample_parser sample_host
           _ _ _ H).
Defined.

(** X8.  [process_file] writes nothing unless it returns: whenever a table
    was written, it holds no rows, it sits at the path [process_file]
    returns, and the call did return. *)
Theorem process_file_writes_only_on_success :
  forall row (self : FileParser row) (h : host row) (p out_file : path)
         (rows : list row),
    In (EvWriteParquet out_file rows) (snd (process_file self h p [])) ->
    rows = [] /\ fst (process_file self h p []) = Returned out_file.
Proof.
  intros row self h p out_file rows.
  run_io; intros Hin;
    repeat (destruct Hin as [Hin | Hin]; try discriminate Hin);
    try contradiction.
  injection Hin as <- <-. split; reflexivity.
Qed.

Lemma process_file_writes_only_on_success_witness :
  In (EvWriteParquet "out/short.parquet" [])
     (snd (process_file sample_parser sample_host "in/short.bin" [])) /\
  @nil N = [] /\
  fst (process_file sample_parser sample_host "in/short.bin" []) =
    Returned "out/short.parquet"%string.
Proof.
  assert (H : In (EvWriteParquet "out/short.parquet" [])
                 (snd (process_file sample_parser sample_host
                         "in/short.bin" [])))
    by (vm_compute; tauto).
  split; [ exact H | ].
  exact (process_file_writes_only_on_success N sample_parser sample_host
           _ _ _ H).
Defined.

(** X9.  Failures ahead of any output, whatever the parser and the host: a
    file that cannot be opened fails with [FileNotFoundError] and no effect
    at all; an empty file fails with [ValueError] after the file object was
    opened and closed; a file of 35 bytes or more fails with
    [AttributeError] after it was mapped.  In none of these cases is a
    directory made, a line printed or a table written. *)
Theorem process_file_early_failures :
  forall row (self : FileParser row) (h : host row) (p : path),
    (fs_read h p = None ->
     process_file self h p [] = (Failed FileNotFoundError, [])) /\
    (fs_read h p = Some [] ->
     process_file self h p [] =
       (Failed ValueError, [EvFileOpen p; EvFileClose p])) /\
    (forall content,
       fs_read h p = Some content ->
       35 <= N.of_nat (length content) ->
       process_file self h p [] =
         (Failed AttributeError, [EvFileOpen p; EvMmap p; EvFileClose p])).
Proof.
  intros row self h p.
  split; [ | split ].
  - intros Hfs. unfold process_file, mmap_file, with_open, io_bind.
    rewrite Hfs. reflexivity.
  - intros Hfs. unfold process_file, io_bind.
    rewrite (mmap_file_empty h p Hfs). reflexivity.
  - intros content Hfs Hlen. unfold process_file, io_bind.
    assert (Hne : content <> []).
    { intros ->. cbn in Hlen. lia. }
    rewrite (mmap_file_nonempty h p content Hfs Hne).
    cbn [mm_bytes]. rewrite extract_frames_eq.
    rewrite parse_layer1_raises by exact Hlen.
    reflexivity.
Qed.

Lemma process_file_early_failures_witness :
  fs_read sample_host "in/a.bin" = Some sample_file /\
  35 <= N.of_nat (length sample_file) /\
  process_file sample_parser sample_host "in/a.bin" [] =
    (Failed AttributeError,
     [EvFileOpen "in/a.bin"; EvMmap "in/a.bin"; EvFileClose "in/a.bin"]).
Proof.
  split; [ reflexivity | ].
  split; [ vm_compute; discriminate | ].
  apply (proj2 (proj2 (process_file_early_failures N sample_parser sample_host
                         "in/a.bin")) sample_file eq_refl).
  vm_compute. discriminate.
Defined.

(* ================================================================== *)
(** * Further properties of the directory run and the constructor       *)
(* ================================================================== *)


Lemma file_events_reported {row} (self : FileParser row) (h : host row)
    (f : path) :
  reported_files (file_events self h f) = [f].
Proof.
  unfold file_events.
  pose proof (worker_never_hangs self h f) as Hlive.
  destruct (worker_outcome self h f); [ | | contradiction ]; reflexivity.
Qed.

Lemma reported_files_flat_map {row} (self : FileParser row) (h : host row)
    (completed : list path) :
  reported_files (flat_map (file_events self h) completed) = completed.
Proof.
  induction completed as [|f rest IH]; [ reflexivity | ].
  cbn [flat_map]. unfold reported_files in *.
  rewrite flat_map_app, IH.
  fold (reported_files (file_events self h f)).
  rewrite file_events_reported. reflexivity.
Qed.


(** X11.  The coordinator prints exactly one line (done or failed) per
    completed file, in the order in which the files complete, whatever the
    order in which they were found and submitted. *)
Theorem reports_follow_completion_order :
  forall row (self : FileParser row) (h : host row)
         (files completed : list path),
    reported_files (snd (process_directory self h files completed [])) =
    completed.
Proof.
  intros row self h files completed.
  rewrite process_directory_log. cbn [snd].
  unfold reported_files. rewrite !flat_map_app.
  fold (reported_files (flat_map (file_events self h) completed)).
  rewrite reported_files_flat_map.
  destruct files; cbn; rewrite app_nil_r; reflexivity.
Qed.

(** X12.  Constructing a [FileParser] makes the output directory and fails
    with the error of that call if it fails.  Otherwise the three
    attributes are stored as given and the worker count is never zero: a
    positive [max_workers] is kept; a missing or zero one is replaced by a
    positive CPU count, and by 4 when the CPU count is unknown or zero. *)
Theorem FileParser_init_outcome :
  forall row (h : host row) (input output : path)
         (dbc : pyobj -> pyobj -> result (list row))
         (mw cpu : option N),
    (forall e, mkdir_parents h output = inl e ->
       FileParser_init h input output dbc mw cpu [] = (Failed e, [])) /\
    (mkdir_parents h output = inr tt ->
     exists fp,
       FileParser_init h input output dbc mw cpu [] =
         (Returned fp, [EvMkdir output]) /\
       input_dir fp = input /\ output_dir fp = output /\
       decode_frame fp = dbc /\
       0 < max_workers fp /\
       (forall n, mw = Some n -> 0 < n -> max_workers fp = n) /\
       (mw = None \/ mw = Some 0 ->
        (forall c, cpu = Some c -> 0 < c -> max_workers fp = c) /\
        (cpu = None \/ cpu = Some 0 -> max_workers fp = 4))).
Proof.
  intros row h input output dbc mw cpu.
  unfold FileParser_init, io_bind, lift, emit, io_ret, io_raise.
  split.
  - intros e He. rewrite He. reflexivity.
  - intros Hok. rewrite Hok. cbn [app].
    eexists. split; [ reflexivity | ].
    cbn [input_dir output_dir decode_frame max_workers].
    repeat split.
    + unfold or_else.
      destruct mw as [n|]; [ destruct (N.eqb_spec n 0) | ];
        try lia;
        (destruct cpu as [c|]; [ destruct (N.eqb_spec c 0) | ]; lia).
    + intros n -> Hn. unfold or_else.
      destruct (N.eqb_spec n 0); [ lia | reflexivity ].
    + intros c -> Hc.
      assert (Hcpu : or_else (Some c) 4 = c).
      { unfold or_else. destruct (N.eqb_spec c 0); [ lia | reflexivity ]. }
      destruct H as [-> | ->]; cbn [or_else N.eqb]; exact Hcpu.
    + intros Hcpu.
      destruct H as [-> | ->]; destruct Hcpu as [-> | ->]; reflexivity.
Qed.

Lemma FileParser_init_outcome_witness :
  mkdir_parents sample_host "out" = inr tt /\
  exists fp,
    FileParser_init sample_host "in" "out" sample_decode (Some 0) None [] =
      (Returned fp, [EvMkdir "out"]) /\
    max_workers fp = 4.
Proof.
  split; [ reflexivity | ].
  destruct (proj2 (FileParser_init_outcome N sample_host "in" "out"
                     sample_decode (Some 0) None) eq_refl)
    as (fp & Hrun & _ & _ & _ & _ & _ & Hdef).
  exists fp. split; [ exact Hrun | ].
  apply Hdef; [ right; reflexivity | left; reflexivity ].
Defined.
